(** * Authentication core of the AI smart-assistant backend

    A shallow embedding of [backend/auth/password.py],
    [backend/auth/jwt_handler.py], [backend/dependencies.py] and the login
    route of [backend/routes/auth.py], together with the properties the
    specification states about them; then of the code around them: the
    start-up checks of [backend/config.py], the registration password of
    [backend/schemas.py], the provider failover of
    [backend/services/ai_service.py], the severity classifier of
    [backend/routes/symptoms.py] and the FAQ retrieval of
    [backend/routes/chatbot.py], with properties read off that code.

    Conventions of the embedding:
    - a Python [str] that the code inspects character by character (a
      password) is a list of Unicode code points; HTTP header values, tokens
      and messages, which arrive as Latin-1 text, are [string]s;
    - a Python [dict] with string keys is a [gmap string value];
    - [datetime] and [timedelta] are integers counting microseconds, without
      the range limits of the Python types; a property that needs the
      limits names them ([representable]);
    - a function that may raise returns a [result]; a function that also
      prints or queries the database returns a computation [M] that carries
      the trace of these effects. *)

From Stdlib Require Import ZArith NArith List String Ascii Bool Lia.
From stdpp Require Import base option gmap strings list.

Local Open Scope string_scope.

(** ** The Python runtime, as far as the code uses it *)

Module Py.

(** A Unicode code point. *)
Definition codepoint := N.

(** A [str] seen as its sequence of code points. *)
Definition pystr := list codepoint.

(** The code points of an ASCII literal. *)
Definition py (s : string) : pystr :=
  map N_of_ascii (list_ascii_of_string s).

(** The values held in a claims dictionary of this application: JSON
    scalars, and [VDatetime], a [datetime] object (microseconds since the
    epoch), which only exists before serialization. *)
Inductive value :=
| VNone
| VBool (b : bool)
| VInt (n : Z)
| VStr (s : string)
| VDatetime (t : Z).

(** Truth value testing, as [if x:] and [not x] apply it. *)
Definition truthy (v : value) : bool :=
  match v with
  | VNone => false
  | VBool b => b
  | VInt n => negb (n =? 0)%Z
  | VStr s => negb (String.eqb s EmptyString)
  | VDatetime _ => true
  end.

(** [dict.get(key)] returns [None] for a missing key. *)
Definition dict_get (d : gmap string value) (key : string) : value :=
  default VNone (d !! key).

(** A dictionary is true when it is not empty. *)
Definition dict_truthy (d : gmap string value) : bool :=
  negb (bool_decide (d = ∅)).

(** [timedelta] arithmetic, in microseconds. *)
Definition timedelta := Z.
Definition timedelta_minutes (m : Z) : timedelta := (m * 60000000)%Z.
Definition timedelta_seconds (s : Z) : timedelta := (s * 1000000)%Z.
Definition timedelta_truthy (d : timedelta) : bool := negb (d =? 0)%Z.

(** Exceptions. The three jose classes form a hierarchy rooted at
    [JWTError]. *)
Inductive exn :=
| HTTPException (status_code : Z) (detail : string)
                (headers : option (list (string * string)))
| JWTError (msg : string)
| ExpiredSignatureError (msg : string)
| JWTClaimsError (msg : string)
| IndexError (msg : string)
| OtherError (cls : string) (msg : string).

(** [isinstance(e, JWTError)], which is what [except JWTError] tests. *)
Definition isinstance_JWTError (e : exn) : bool :=
  match e with
  | JWTError _ | ExpiredSignatureError _ | JWTClaimsError _ => true
  | _ => false
  end.

(** [str(e)]. *)
Definition str_exn (e : exn) : string :=
  match e with
  | HTTPException _ d _ => d
  | JWTError m | ExpiredSignatureError m | JWTClaimsError m => m
  | IndexError m => m
  | OtherError _ m => m
  end.

Inductive result (A : Type) :=
| Return (a : A)
| Raise (e : exn).
Arguments Return {A} a.
Arguments Raise {A} e.

(** Observable effects of the code under study. *)
Inductive event :=
| Printed (line : string)
| QueryUserById (user_id : value)
| QueryUserByEmail (email : string).

(** A computation: the effects performed, in order, and how it ended. *)
Definition M (A : Type) : Type := (list event * result A)%type.

Definition ret {A} (a : A) : M A := ([], Return a).
Definition raise {A} (e : exn) : M A := ([], Raise e).
Definition tell (ev : event) : M unit := ([ev], Return tt).
Definition lift {A} (r : result A) : M A := ([], r).

Definition bind {A B} (m : M A) (k : A -> M B) : M B :=
  match m with
  | (tr, Return a) => let '(tr', r) := k a in ((tr ++ tr')%list, r)
  | (tr, Raise e) => (tr, Raise e)
  end.

Definition trace {A} (m : M A) : list event := fst m.
Definition outcome {A} (m : M A) : result A := snd m.

(** [s.startswith(prefix)]. *)
Fixpoint startswith (s pre : string) {struct pre} : bool :=
  match pre with
  | EmptyString => true
  | String a pre' =>
      match s with
      | EmptyString => false
      | String b s' => Ascii.eqb a b && startswith s' pre'
      end
  end.

(** [s.split(sep)] for a one-character separator: every occurrence of the
    separator cuts, and adjacent separators give empty fields. *)
Fixpoint split (sep : ascii) (s : string) : list string :=
  match s with
  | EmptyString => [EmptyString]
  | String c rest =>
      if Ascii.eqb c sep then EmptyString :: split sep rest
      else match split sep rest with
           | [] => [String c EmptyString]
           | field :: fields => String c field :: fields
           end
  end.

(** [l[i]], which raises [IndexError] out of range. *)
Definition subscript {A} (l : list A) (i : nat) : result A :=
  match nth_error l i with
  | Some x => Return x
  | None => Raise (IndexError "list index out of range")
  end.

(** [repr] of a list of strings that need no escaping: ['a', 'b']. *)
Fixpoint join_quoted (l : list string) : string :=
  match l with
  | [] => EmptyString
  | [x] => "'" +:+ x +:+ "'"
  | x :: rest => "'" +:+ x +:+ "', " +:+ join_quoted rest
  end.

Definition repr_str_list (l : list string) : string :=
  "[" +:+ join_quoted l +:+ "]".

End Py.

Export Py.

Notation "'let!' x ':=' m 'in' k" := (Py.bind m (fun x => k))
  (at level 10, x name, m at level 100, k at level 200).

(** ** [config.py]: the process-wide settings *)

Record Settings := {
  JWT_SECRET : string;
  JWT_ALGORITHM : string;
  ACCESS_TOKEN_EXPIRE_MINUTES : Z
}.

(** The values [config.py] gives when the environment overrides nothing. *)
Definition default_settings : Settings := {|
  JWT_SECRET := "CHANGE_THIS_IN_PRODUCTION_USE_RANDOM_STRING";
  JWT_ALGORITHM := "HS256";
  ACCESS_TOKEN_EXPIRE_MINUTES := 1440
|}.

(** ** [models/user.py] *)

Inductive UserRole := GUEST | USER | ADMIN.

(** [role.value]. *)
Definition UserRole_value (r : UserRole) : string :=
  match r with
  | GUEST => "guest"
  | USER => "user"
  | ADMIN => "admin"
  end.

#[global] Instance UserRole_eq_dec : EqDecision UserRole.
Proof. solve_decision. Defined.

(** A row of the [users] table. *)
Module User.
Record t := {
  id : Z;
  name : string;
  email : string;
  password_hash : string;
  role : UserRole;
  created_at : Z
}.
End User.

(** ** [auth/password.py] *)

Module Password.

(** [re.search(r"[...]", s)] for a pattern that is one character class: some
    character of [s] belongs to the class. *)
Definition re_search (cls : codepoint -> bool) (s : pystr) : bool :=
  existsb cls s.

Definition in_range (lo hi c : codepoint) : bool :=
  ((lo <=? c) && (c <=? hi))%N.

(** [[A-Z]] and [[a-z]]: the ASCII ranges. *)
Definition cls_A_Z : codepoint -> bool := in_range 65%N 90%N.
Definition cls_a_z : codepoint -> bool := in_range 97%N 122%N.

(** The code points of general category Nd (Unicode 14.0.0), as ranges. On
    a [str] pattern [\d] matches any of them, not only the ASCII digits. *)
Definition unicode_Nd : list (codepoint * codepoint) :=
  [(48, 57); (1632, 1641); (1776, 1785); (1984, 1993); (2406, 2415);
   (2534, 2543); (2662, 2671); (2790, 2799); (2918, 2927); (3046, 3055);
   (3174, 3183); (3302, 3311); (3430, 3439); (3558, 3567); (3664, 3673);
   (3792, 3801); (3872, 3881); (4160, 4169); (4240, 4249); (6112, 6121);
   (6160, 6169); (6470, 6479); (6608, 6617); (6784, 6793); (6800, 6809);
   (6992, 7001); (7088, 7097); (7232, 7241); (7248, 7257); (42528, 42537);
   (43216, 43225); (43264, 43273); (43472, 43481); (43504, 43513);
   (43600, 43609); (44016, 44025); (65296, 65305); (66720, 66729);
   (68912, 68921); (69734, 69743); (69872, 69881); (69942, 69951);
   (70096, 70105); (70384, 70393); (70736, 70745); (70864, 70873);
   (71248, 71257); (71360, 71369); (71472, 71481); (71904, 71913);
   (72016, 72025); (72784, 72793); (73040, 73049); (73120, 73129);
   (92768, 92777); (92864, 92873); (93008, 93017); (120782, 120831);
   (123200, 123209); (123632, 123641); (125264, 125273);
   (130032, 130041)]%N.

Definition cls_digit (c : codepoint) : bool :=
  existsb (fun r => in_range (fst r) (snd r) c) unicode_Nd.

(** The class of the last pattern: the twenty characters
    ! @ # $ % ^ & * ( ) , . ? (double quote) : { } | < >.
    Code point 34 is the double quote, which the pattern escapes. *)
Definition special_characters : pystr :=
  (py "!@#$%^&*(),.?" ++ [34%N] ++ py ":{}|<>")%list.

Definition cls_special (c : codepoint) : bool :=
  existsb (N.eqb c) special_characters.

Definition validate_password_strength (password : pystr) : bool * string :=
  if (List.length password <? 8)%nat then
    (false, "Password must be at least 8 characters long")
  else if negb (re_search cls_A_Z password) then
    (false, "Password must contain at least one uppercase letter")
  else if negb (re_search cls_a_z password) then
    (false, "Password must contain at least one lowercase letter")
  else if negb (re_search cls_digit password) then
    (false, "Password must contain at least one number")
  else if negb (re_search cls_special password) then
    (false, "Password must contain at least one special character")
  else
    (true, EmptyString).

End Password.

(** [pwd_context.verify] of passlib, which may raise on a stored value it
    does not recognise as a hash. *)
Class Passlib := {
  pwd_context_verify : pystr -> string -> result bool
}.

Definition verify_password `{Passlib} (plain_password : pystr)
    (hashed_password : string) : result bool :=
  pwd_context_verify plain_password hashed_password.


(** ** [auth/jwt_handler.py] *)

(** The two functions of python-jose the handler calls. [jwt_encode claims
    key algorithm] is [jwt.encode]; [jwt_decode token key algorithms now] is
    [jwt.decode], which reads the clock to validate [exp]. Both may raise. *)
Class JoseLib := {
  jwt_encode : gmap string value -> string -> string -> result string;
  jwt_decode : string -> string -> list string -> Z ->
               result (gmap string value)
}.

Module JwtHandler.
Section JwtHandler.
Context `{JoseLib} (settings : Settings).

(** The claims [create_access_token] hands to [jwt.encode]: a copy of
    [data] with [exp] added. [utcnow] is the reading of
    [datetime.utcnow()]. *)
Definition to_encode (data : gmap string value)
    (expires_delta : option timedelta) (utcnow : Z) : gmap string value :=
  let expire :=
    match expires_delta with
    | Some delta =>
        if timedelta_truthy delta then (utcnow + delta)%Z
        else (utcnow
              + timedelta_minutes (ACCESS_TOKEN_EXPIRE_MINUTES settings))%Z
    | None =>
        (utcnow + timedelta_minutes (ACCESS_TOKEN_EXPIRE_MINUTES settings))%Z
    end in
  <["exp" := VDatetime expire]> data.

Definition create_access_token (data : gmap string value)
    (expires_delta : option timedelta) (utcnow : Z) : result string :=
  jwt_encode (to_encode data expires_delta utcnow)
             (JWT_SECRET settings) (JWT_ALGORITHM settings).

Definition verify_token (token : string) (utcnow : Z)
    : M (option (gmap string value)) :=
  match jwt_decode token (JWT_SECRET settings) [JWT_ALGORITHM settings]
                   utcnow with
  | Return payload => ret (Some payload)
  | Raise e =>
      if isinstance_JWTError e then
        let! _ := tell (Printed ("JWT verification failed: " +:+ str_exn e)) in
        ret None
      else raise e
  end.

(** The result is [payload.get("user_id")], or [None]. *)
Definition extract_user_id (token : string) (utcnow : Z) : M value :=
  let! payload := verify_token token utcnow in
  match payload with
  | Some payload =>
      if dict_truthy payload then ret (dict_get payload "user_id")
      else ret VNone
  | None => ret VNone
  end.

Definition token_data (user_id : Z) (email role : string)
    : gmap string value :=
  <["user_id" := VInt user_id]>
    (<["email" := VStr email]> (<["role" := VStr role]> ∅)).

Definition create_user_token (user_id : Z) (email role : string)
    (utcnow : Z) : result string :=
  create_access_token (token_data user_id email role) None utcnow.

End JwtHandler.
End JwtHandler.

(** ** [dependencies.py] *)

(** The user queries the code sends through the SQLAlchemy session:
    [db.query(User).filter(User.id == v).first()] and the same on
    [User.email]. A query returns the first matching row or [None], or it
    raises: the driver cannot bind the value, the connection is lost. The
    code guards none of its queries. *)
Class Orm := {
  Session : Type;
  first_user_by_id : Session -> value -> result (option User.t);
  first_user_by_email : Session -> string -> result (option User.t)
}.

(** [fastapi.status]. *)
Module status.
Definition HTTP_401_UNAUTHORIZED : Z := 401.
Definition HTTP_403_FORBIDDEN : Z := 403.
End status.

Module HTTPAuthorizationCredentials.
Record t := { scheme : string; credentials : string }.
End HTTPAuthorizationCredentials.

Module Dependencies.
Section Dependencies.
Context `{JoseLib} `{Orm} (settings : Settings).

Definition query_user_by_id (db : Session) (v : value) : M (option User.t) :=
  let! _ := tell (QueryUserById v) in
  lift (first_user_by_id db v).

Definition get_current_user (credentials : HTTPAuthorizationCredentials.t)
    (db : Session) (utcnow : Z) : M User.t :=
  let token := HTTPAuthorizationCredentials.credentials credentials in
  let! payload := JwtHandler.verify_token settings token utcnow in
  match payload with
  | None =>
      raise (HTTPException status.HTTP_401_UNAUTHORIZED
               "Invalid or expired token"
               (Some [("WWW-Authenticate", "Bearer")]))
  | Some payload =>
      if negb (dict_truthy payload) then
        raise (HTTPException status.HTTP_401_UNAUTHORIZED
                 "Invalid or expired token"
                 (Some [("WWW-Authenticate", "Bearer")]))
      else
        let user_id := dict_get payload "user_id" in
        if negb (truthy user_id) then
          raise (HTTPException status.HTTP_401_UNAUTHORIZED
                   "Invalid token payload"
                   (Some [("WWW-Authenticate", "Bearer")]))
        else
          let! user := query_user_by_id db user_id in
          match user with
          | None =>
              raise (HTTPException status.HTTP_401_UNAUTHORIZED
                       "User not found"
                       (Some [("WWW-Authenticate", "Bearer")]))
          | Some user => ret user
          end
  end.

Definition get_current_admin (current_user : User.t) : result User.t :=
  if negb (bool_decide (User.role current_user = ADMIN)) then
    Raise (HTTPException status.HTTP_403_FORBIDDEN "Admin access required"
             None)
  else Return current_user.

Definition get_optional_user (authorization : option string)
    (db : Session) (utcnow : Z) : M (option User.t) :=
  match authorization with
  | None => ret None
  | Some authorization =>
      if String.eqb authorization EmptyString then ret None
      else if negb (startswith authorization "Bearer ") then ret None
      else
        let! token := lift (subscript (split " " authorization) 1) in
        let! payload := JwtHandler.verify_token settings token utcnow in
        match payload with
        | None => ret None
        | Some payload =>
            if negb (dict_truthy payload) then ret None
            else
              let user_id := dict_get payload "user_id" in
              if negb (truthy user_id) then ret None
              else query_user_by_id db user_id
        end
  end.

(** [require_role], given the allowed roles, returns the closure
    [role_checker]. *)
Definition require_role (allowed_roles : list UserRole)
    : User.t -> result User.t :=
  fun current_user =>
    if bool_decide (User.role current_user ∉ allowed_roles) then
      Raise (HTTPException status.HTTP_403_FORBIDDEN
               ("Access denied. Required roles: "
                +:+ repr_str_list (map UserRole_value allowed_roles))
               None)
    else Return current_user.

(** [Depends(get_current_user)]: the framework resolves the user first and
    passes it to the dependent function; a failure there ends the
    request. *)
Definition depends_on_current_user (guard : User.t -> result User.t)
    (credentials : HTTPAuthorizationCredentials.t) (db : Session)
    (utcnow : Z) : M User.t :=
  let! current_user := get_current_user credentials db utcnow in
  lift (guard current_user).

End Dependencies.
End Dependencies.

(** ** [schemas.py] and the login route of [routes/auth.py] *)

Module UserLogin.
Record t := { email : string; password : pystr }.
End UserLogin.

Module UserResponse.
Record t := {
  id : Z;
  email : string;
  name : string;
  role : string;
  created_at : Z
}.
End UserResponse.

Module TokenResponse.
Record t := {
  access_token : string;
  token_type : string;
  user : UserResponse.t
}.
End TokenResponse.

(** [UserResponse.from_orm], the validation pydantic runs on a row. *)
Class Pydantic := {
  UserResponse_from_orm : User.t -> result UserResponse.t
}.

Module Routes.
Section Routes.
Context `{JoseLib} `{Orm} `{Passlib} `{Pydantic} (settings : Settings).

Definition query_user_by_email (db : Session) (email : string)
    : M (option User.t) :=
  let! _ := tell (QueryUserByEmail email) in
  lift (first_user_by_email db email).

Definition login (credentials : UserLogin.t) (db : Session) (utcnow : Z)
    : M TokenResponse.t :=
  let! user := query_user_by_email db (UserLogin.email credentials) in
  match user with
  | None =>
      raise (HTTPException status.HTTP_401_UNAUTHORIZED
               "Incorrect email or password" None)
  | Some user =>
      let! matches :=
        lift (verify_password (UserLogin.password credentials)
                              (User.password_hash user)) in
      if negb matches then
        raise (HTTPException status.HTTP_401_UNAUTHORIZED
                 "Incorrect email or password" None)
      else
        let! token :=
          lift (JwtHandler.create_user_token settings (User.id user)
                  (User.email user) (UserRole_value (User.role user))
                  utcnow) in
        let! user_response := lift (UserResponse_from_orm user) in
        ret {| TokenResponse.access_token := token;
               TokenResponse.token_type := "bearer";
               TokenResponse.user := user_response |}
  end.

End Routes.
End Routes.

(** ** The specification's vocabulary *)

(** *** Password rules, as the specification lists them *)

Module PasswordSpec.
Import Password.

(** The five rules in the order of the specification, each with the
    message reported when it is the first to fail. *)
Definition rules : list ((pystr -> bool) * string) :=
  [ (fun p => negb (List.length p <? 8)%nat,
     "Password must be at least 8 characters long");
    (re_search cls_A_Z,
     "Password must contain at least one uppercase letter");
    (re_search cls_a_z,
     "Password must contain at least one lowercase letter");
    (re_search cls_digit,
     "Password must contain at least one number");
    (re_search cls_special,
     "Password must contain at least one special character") ].

Definition passes_every_rule (p : pystr) : bool :=
  forallb (fun rule => fst rule p) rules.

Definition first_failing_rule (p : pystr) : option string :=
  snd <$> List.find (fun rule => negb (fst rule p)) rules.

Definition validate_strength (p : pystr) : bool * string :=
  match first_failing_rule p with
  | Some message => (false, message)
  | None => (true, EmptyString)
  end.

(** The same five rules by name, without the wording of their messages. *)
Inductive Rule := MinLength | Uppercase | Lowercase | Digit | Special.

Definition rule_order : list Rule :=
  [MinLength; Uppercase; Lowercase; Digit; Special].

Definition passes (rule : Rule) (p : pystr) : bool :=
  match rule with
  | MinLength => (8 <=? List.length p)%nat
  | Uppercase => re_search cls_A_Z p
  | Lowercase => re_search cls_a_z p
  | Digit => re_search cls_digit p
  | Special => re_search cls_special p
  end.

(** The first rule, in the order of the specification, that [p] fails. *)
Definition first_failing (p : pystr) : option Rule :=
  List.find (fun rule => negb (passes rule p)) rule_order.

(** The message that the return statement of each rule carries in
    [validate_password_strength]. *)
Definition message_of (rule : Rule) : string :=
  match rule with
  | MinLength => "Password must be at least 8 characters long"
  | Uppercase => "Password must contain at least one uppercase letter"
  | Lowercase => "Password must contain at least one lowercase letter"
  | Digit => "Password must contain at least one number"
  | Special => "Password must contain at least one special character"
  end.

(** A special character in the wording of the specification: neither
    alphanumeric nor white space. The definition is restricted to ASCII,
    where both notions are beyond dispute. *)
Definition ascii_alphanumeric (c : codepoint) : bool :=
  cls_A_Z c || cls_a_z c || in_range 48%N 57%N c.

Definition ascii_whitespace (c : codepoint) : bool :=
  in_range 9%N 13%N c || in_range 28%N 32%N c.

Definition ascii_special (c : codepoint) : bool :=
  (c <? 128)%N && negb (ascii_alphanumeric c) && negb (ascii_whitespace c).

End PasswordSpec.

(** *** Outcomes of the access guards, in the specification's taxonomy *)

Inductive AccessOutcome :=
| Authorized (identity : User.t)
| Unauthenticated
| Forbidden
| Failure (e : exn).

Definition access_outcome (r : result User.t) : AccessOutcome :=
  match r with
  | Return identity => Authorized identity
  | Raise (HTTPException code detail headers) =>
      if (code =? 401)%Z then Unauthenticated
      else if (code =? 403)%Z then Forbidden
      else Failure (HTTPException code detail headers)
  | Raise e => Failure e
  end.

(** *** Token lifetime *)

(** The expiry of a token issued at [utcnow] with the configured default
    lifetime. *)
Definition default_expire (settings : Settings) (utcnow : Z) : Z :=
  (utcnow + timedelta_minutes (ACCESS_TOKEN_EXPIRE_MINUTES settings))%Z.

(** The instants a [datetime] holds, from the first microsecond of year 1
    to the last of year 9999, counted from the epoch. The sum of a
    [datetime] and a [timedelta] outside them raises [OverflowError] in
    Python. *)
Definition datetime_min : Z := (-62135596800000000)%Z.
Definition datetime_max : Z := 253402300799999999%Z.

Definition representable (t : Z) : Prop :=
  (datetime_min <= t <= datetime_max)%Z.

(** *** What the code relies on from python-jose *)

(** [timegm(t.utctimetuple())]: whole seconds, microseconds dropped. *)
Definition timegm (t : Z) : Z := (t / 1000000)%Z.

(** The claims a decoded token carries when [claims] went into
    [jwt.encode]: a [datetime] under one of the time claims has become a
    number of seconds. *)
Definition jose_claims (claims : gmap string value) : gmap string value :=
  foldr (fun key m =>
           match m !! key with
           | Some (VDatetime t) => <[key := VInt (timegm t)]> m
           | _ => m
           end)
        claims ["exp"; "iat"; "nbf"].


(** The library carries [claims]: encoding succeeds, and decoding the
    token with the same key and algorithm gives the claims back as long as
    the second of [exp] has not passed. *)
Definition jose_round_trip `{JoseLib} (claims : gmap string value)
    (key algorithm : string) : Prop :=
  exists token,
    jwt_encode claims key algorithm = Return token /\
    forall now t,
      claims !! "exp" = Some (VDatetime t) ->
      (timegm now <= timegm t)%Z ->
      jwt_decode token key [algorithm] now = Return (jose_claims claims).

(** *** Header shape *)

(** A compact JWT serialization holds no space. *)
Fixpoint no_space (s : string) : bool :=
  match s with
  | EmptyString => true
  | String c rest => negb (Ascii.eqb c " ") && no_space rest
  end.

Definition bearer (token : string) : HTTPAuthorizationCredentials.t := {|
  HTTPAuthorizationCredentials.scheme := "Bearer";
  HTTPAuthorizationCredentials.credentials := token
|}.

(** ** Small instances of the collaborators, to run the code on *)

Module Sample.

#[global] Instance value_eq_dec : EqDecision value.
Proof. solve_decision. Defined.

(** A codec that knows the tokens of a book of issued claims, and checks
    expiry the way the library does. *)
Definition book_jose (book : list (gmap string value * string)) : JoseLib := {|
  jwt_encode claims key algorithm :=
    match List.find (fun entry => bool_decide (fst entry = claims)) book with
    | Some entry => Return (snd entry)
    | None => Raise (JWTError "claims not in the book")
    end;
  jwt_decode token key algorithms now :=
    match List.find (fun entry => String.eqb (snd entry) token) book with
    | Some entry =>
        match jose_claims (fst entry) !! "exp" with
        | Some (VInt exp) =>
            if (exp <? timegm now)%Z then
              Raise (ExpiredSignatureError "Signature has expired.")
            else Return (jose_claims (fst entry))
        | _ => Return (jose_claims (fst entry))
        end
    | None => Raise (JWTError "Not enough segments")
    end
|}.

(** The [users] table as a list of rows. As the SQLite driver does, the
    query on the id raises [OverflowError] for an integer that does not fit
    the 64-bit column. *)
Definition table_orm : Orm := {|
  Session := list User.t;
  first_user_by_id db v :=
    match v with
    | VInt n =>
        if ((n <? - 2 ^ 63) || (2 ^ 63 <=? n))%Z then
          Raise (OtherError "OverflowError"
                   "Python int too large to convert to SQLite INTEGER")
        else Return (List.find (fun u => (User.id u =? n)%Z) db)
    | _ => Return None
    end;
  first_user_by_email db e :=
    Return (List.find (fun u => String.eqb (User.email u) e) db)
|}.

(** A stand-in for the hash: the stored value is the password itself. *)
Definition plain_passlib : Passlib := {|
  pwd_context_verify plain hashed := Return (bool_decide (py hashed = plain))
|}.

Definition plain_pydantic : Pydantic := {|
  UserResponse_from_orm u :=
    Return {| UserResponse.id := User.id u;
              UserResponse.email := User.email u;
              UserResponse.name := User.name u;
              UserResponse.role := UserRole_value (User.role u);
              UserResponse.created_at := User.created_at u |}
|}.

Definition alice : User.t := {|
  User.id := 123; User.name := "Alice"; User.email := "a@b.com";
  User.password_hash := "StrongP@ss123"; User.role := USER;
  User.created_at := 0
|}.

Definition root : User.t := {|
  User.id := 1; User.name := "Root"; User.email := "root@b.com";
  User.password_hash := "Adm1n!strator"; User.role := ADMIN;
  User.created_at := 0
|}.

Definition users : list User.t := [root; alice].

(** The claims of Alice's token issued at time 0 with the default
    lifetime, and of a token whose [user_id] is 0. *)
Definition alice_claims : gmap string value :=
  JwtHandler.to_encode default_settings
    (JwtHandler.token_data 123 "a@b.com" "user") None 0.

Definition zero_claims : gmap string value :=
  JwtHandler.to_encode default_settings
    (JwtHandler.token_data 0 "z@b.com" "user") None 0.

Definition book : list (gmap string value * string) :=
  [ (alice_claims, "alice.token.sig"); (zero_claims, "zero.token.sig") ].

(** The header segment of a token is base64url text, and W1tb is the text
    of three opening brackets: [nested_header n] is the segment of a header
    that opens [3 * n] nested JSON arrays. *)
Fixpoint nested_header (n : nat) : string :=
  match n with
  | O => EmptyString
  | S n => "W1tb" +:+ nested_header n
  end.

(** A token whose header opens 102000 nested arrays. *)
Definition nested_token : string :=
  nested_header (34 * 1000) +:+ ".e30.c2ln".

(** [book_jose] with two more behaviours of the library.
    [jwt.decode] parses the header segment with [json.loads] and turns a
    [ValueError] into a [JWSError]; on a header nested deeper than the
    recursion limit of the interpreter (1000 by default) [json.loads]
    raises [RecursionError], which is no [ValueError] and no [JWTError].
    And a token whose claims hold [aud] is refused when the caller names no
    audience, as [verify_token] does not. *)
Definition strict_jose (book : list (gmap string value * string))
    : JoseLib := {|
  jwt_encode := @jwt_encode (book_jose book);
  jwt_decode token key algorithms now :=
    if startswith token (nested_header 334) then
      Raise (OtherError "RecursionError"
               "maximum recursion depth exceeded while decoding a JSON array from a unicode string")
    else
      match @jwt_decode (book_jose book) token key algorithms now with
      | Return claims =>
          match claims !! "aud" with
          | Some (VStr _) => Raise (JWTClaimsError "Invalid audience")
          | Some _ => Raise (JWTClaimsError "Invalid claim format in token")
          | None => Return claims
          end
      | Raise e => Raise e
      end
|}.

(** Claims with an audience, issued at time 0 for thirty minutes. *)
Definition audience_data : gmap string value :=
  <["aud" := VStr "clients"]> (<["user_id" := VInt 123]> ∅).

Definition audience_book : list (gmap string value * string) :=
  [ (JwtHandler.to_encode default_settings audience_data
       (Some (timedelta_minutes 30)) 0, "audience.token.sig") ].

End Sample.


(** ** Further vocabulary: expiry *)

(** The library refuses a token it encoded from [claims] once the second
    of [exp] has passed. *)
Definition jose_rejects_expired `{JoseLib} (claims : gmap string value)
    (key algorithm : string) : Prop :=
  forall token now t,
    jwt_encode claims key algorithm = Return token ->
    claims !! "exp" = Some (VDatetime t) ->
    (timegm t < timegm now)%Z ->
    exists msg,
      jwt_decode token key [algorithm] now = Raise (ExpiredSignatureError msg).

(** The header every 401 of [get_current_user] carries. *)
Definition www_authenticate : option (list (string * string)) :=
  Some [("WWW-Authenticate", "Bearer")].

(** ** More of the Python runtime: text *)

(** The Unicode services of [str] that the remaining code calls; their
    tables belong to the interpreter. [str_lower s] is [s.lower()]; the
    three predicates are [c.isupper()], [c.islower()] and [c.isdigit()] on
    a one-character string. *)
Class UnicodeStr := {
  str_lower : pystr -> pystr;
  isupper : codepoint -> bool;
  islower : codepoint -> bool;
  isdigit : codepoint -> bool
}.

Module PyText.

(** [hay.startswith(needle)] on code points. *)
Fixpoint is_prefix (needle hay : pystr) : bool :=
  match needle, hay with
  | [], _ => true
  | _ :: _, [] => false
  | a :: needle', b :: hay' => N.eqb a b && is_prefix needle' hay'
  end.

(** [needle in hay]: the needle occurs at some position. *)
Fixpoint contains (needle hay : pystr) : bool :=
  is_prefix needle hay ||
  match hay with
  | [] => false
  | _ :: rest => contains needle rest
  end.

(** [any(keyword in text for keyword in keywords)]. *)
Definition any_keyword_in (keywords : list pystr) (text : pystr) : bool :=
  existsb (fun keyword => contains keyword text) keywords.

(** The code points for which [str.isspace] holds (Unicode 14.0.0), as
    ranges; [str.split()] cuts at them. *)
Definition unicode_whitespace : list (codepoint * codepoint) :=
  [(9, 13); (28, 32); (133, 133); (160, 160); (5760, 5760); (8192, 8202);
   (8232, 8233); (8239, 8239); (8287, 8287); (12288, 12288)]%N.

Definition isspace (c : codepoint) : bool :=
  existsb (fun r => Password.in_range (fst r) (snd r) c) unicode_whitespace.

(** [s.split()] with no argument: the maximal runs of characters that are
    not white space; [word] is the run being read. *)
Fixpoint split_from (word : pystr) (s : pystr) : list pystr :=
  match s with
  | [] => match word with [] => [] | _ => [word] end
  | c :: rest =>
      if isspace c then
        match word with
        | [] => split_from [] rest
        | _ => word :: split_from [] rest
        end
      else split_from (word ++ [c])%list rest
  end.

Definition str_split (s : pystr) : list pystr := split_from [] s.

(** [l[:n]]: a negative [n] counts from the end. *)
Definition slice_to {A} (l : list A) (n : Z) : list A :=
  if (n <? 0)%Z then firstn (Z.to_nat (Z.of_nat (List.length l) + n)) l
  else firstn (Z.to_nat n) l.

(** A dictionary keyed by integers that keeps insertion order, as the
    dictionaries of Python do: a new key goes to the end, a known key keeps
    its place and takes the new value. *)
Fixpoint dict_put {V} (key : Z) (v : V) (d : list (Z * V)) : list (Z * V) :=
  match d with
  | [] => [(key, v)]
  | (key', v') :: rest =>
      if (key' =? key)%Z then (key', v) :: rest
      else (key', v') :: dict_put key v rest
  end.

End PyText.

(** ** [models/symptom_check.py] and [routes/symptoms.py] *)

Module Symptoms.
Import PyText.

Inductive SeverityLevel := LOW | MEDIUM | HIGH.

Definition high_keywords : list pystr :=
  map py ["high severity"; "urgent"; "emergency"; "immediate"; "serious";
          "severe"].

Definition low_keywords : list pystr :=
  map py ["low severity"; "minor"; "mild"; "self-care"; "not serious"].

Definition determine_severity `{UnicodeStr} (ai_response : pystr)
    : SeverityLevel :=
  let response_lower := str_lower ai_response in
  if any_keyword_in high_keywords response_lower then HIGH
  else if any_keyword_in low_keywords response_lower then LOW
  else MEDIUM.

End Symptoms.

(** ** [config.py]: the provider keys and the checks at import *)

(** The fields of the settings object that the start-up checks and the AI
    service read, beside the JWT fields of [Settings] above. *)
Module AppSettings.
Record t := {
  jwt : Settings;
  ENVIRONMENT : string;
  DEBUG : bool;
  GEMINI_API_KEY : string;
  GROQ_API_KEY : string;
  HUGGINGFACE_API_KEY : string;
  GEMINI_MODEL : string;
  GROQ_MODEL : string;
  HUGGINGFACE_MODEL : string
}.
End AppSettings.

Module Config.
Import AppSettings.

(** A string is true when it is not empty. *)
Definition str_truthy (s : string) : bool :=
  negb (String.eqb s EmptyString).

Definition get_available_ai_providers (settings : AppSettings.t)
    : list string :=
  let providers := [] in
  let providers :=
    if str_truthy (GEMINI_API_KEY settings) then
      (providers ++ ["Gemini"])%list
    else providers in
  let providers :=
    if str_truthy (GROQ_API_KEY settings) then (providers ++ ["Groq"])%list
    else providers in
  let providers :=
    if str_truthy (HUGGINGFACE_API_KEY settings) then
      (providers ++ ["HuggingFace"])%list
    else providers in
  providers.

(** The two [ValueError]s the module can raise while it is imported. *)
Inductive ImportError :=
| DefaultJwtSecret
| NoAiApiKeys.

(** What the module does after it has built [settings]: the result says
    whether the import raises, the boolean whether the warning about DEBUG
    in production was printed. *)
Definition validation_on_import (settings : AppSettings.t)
    : bool * (unit + ImportError) :=
  if String.eqb (ENVIRONMENT settings) "production" then
    if String.eqb (JWT_SECRET (jwt settings))
         "CHANGE_THIS_IN_PRODUCTION_USE_RANDOM_STRING" then
      (false, inr DefaultJwtSecret)
    else
      let warned := DEBUG settings in
      if negb (str_truthy (GEMINI_API_KEY settings)
               || str_truthy (GROQ_API_KEY settings)
               || str_truthy (HUGGINGFACE_API_KEY settings)) then
        (warned, inr NoAiApiKeys)
      else (warned, inl tt)
  else (false, inl tt).

End Config.

(** ** [services/ai_service.py] *)

(** The provider SDKs, as far as the service touches them. The two flags
    say whether the optional imports succeeded; [genai_configure key model]
    stands for [genai.configure] followed by [genai.GenerativeModel], and
    [Groq_client key] for the constructor of the Groq client. The last three
    are the private methods that call the providers; [float] is the type of
    the temperature. *)
Class AiSdk := {
  float : Type;
  genai_imported : bool;
  Groq_imported : bool;
  genai_configure : string -> string -> result unit;
  Groq_client : string -> result unit;
  _generate_gemini : pystr -> option pystr -> result pystr;
  _generate_groq : pystr -> Z -> float -> option pystr -> result pystr;
  _generate_huggingface : pystr -> Z -> result pystr
}.

Module AiService.
Import AppSettings.

Inductive AIProvider := GEMINI | GROQ | HUGGINGFACE.

#[global] Instance AIProvider_eq_dec : EqDecision AIProvider.
Proof. solve_decision. Defined.

(** The lines the service writes to its logger. *)
Inductive log :=
| Configured (provider : AIProvider)
| ConfigurationFailed (provider : AIProvider) (e : exn)
| NoProvidersConfigured
| Attempting (provider : AIProvider)
| Generated (provider : AIProvider)
| Failed (provider : AIProvider) (e : exn).

Section AiService.
Context `{AiSdk} (settings : AppSettings.t).

(** [AIService.__init__]: the log and the list [self.providers]. *)
Definition init : list log * list AIProvider :=
  let '(logged, providers) := ([], []) in
  let '(logged, providers) :=
    if Config.str_truthy (GEMINI_API_KEY settings) && genai_imported then
      match genai_configure (GEMINI_API_KEY settings)
                            (GEMINI_MODEL settings) with
      | Return _ =>
          ((logged ++ [Configured GEMINI])%list,
           (providers ++ [GEMINI])%list)
      | Raise e =>
          ((logged ++ [ConfigurationFailed GEMINI e])%list, providers)
      end
    else (logged, providers) in
  let '(logged, providers) :=
    if Config.str_truthy (GROQ_API_KEY settings) && Groq_imported then
      match Groq_client (GROQ_API_KEY settings) with
      | Return _ =>
          ((logged ++ [Configured GROQ])%list, (providers ++ [GROQ])%list)
      | Raise e =>
          ((logged ++ [ConfigurationFailed GROQ e])%list, providers)
      end
    else (logged, providers) in
  let '(logged, providers) :=
    if Config.str_truthy (HUGGINGFACE_API_KEY settings) then
      ((logged ++ [Configured HUGGINGFACE])%list,
       (providers ++ [HUGGINGFACE])%list)
    else (logged, providers) in
  if Nat.eqb (List.length providers) 0 then
    ((logged ++ [NoProvidersConfigured])%list, providers)
  else (logged, providers).

(** The call the loop of [generate_response] makes for one provider. *)
Definition generate_with (provider : AIProvider) (prompt : pystr)
    (max_tokens : Z) (temperature : float) (system_message : option pystr)
    : result pystr :=
  match provider with
  | GEMINI => _generate_gemini prompt system_message
  | GROQ => _generate_groq prompt max_tokens temperature system_message
  | HUGGINGFACE => _generate_huggingface prompt max_tokens
  end.

(** The loop over the providers, with the final [raise]. Every exception
    of the model derives from [Exception], so [except Exception] catches
    it. *)
Fixpoint try_providers (providers : list AIProvider) (prompt : pystr)
    (max_tokens : Z) (temperature : float) (system_message : option pystr)
    : list log * result pystr :=
  match providers with
  | [] =>
      ([], Raise (OtherError "Exception"
                    ("All AI providers failed. Please check your API keys "
                     +:+ "and internet connection.")))
  | provider :: rest =>
      match generate_with provider prompt max_tokens temperature
                          system_message with
      | Return response =>
          ([Attempting provider; Generated provider], Return response)
      | Raise e =>
          let '(logged, r) :=
            try_providers rest prompt max_tokens temperature
                          system_message in
          (Attempting provider :: Failed provider e :: logged, r)
      end
  end.

Definition generate_response (providers : list AIProvider) (prompt : pystr)
    (max_tokens : Z) (temperature : float) (system_message : option pystr)
    : list log * result pystr :=
  if Nat.eqb (List.length providers) 0 then
    ([], Raise (OtherError "Exception"
                  ("No AI providers configured. Please add API keys to "
                   +:+ ".env file")))
  else try_providers providers prompt max_tokens temperature system_message.

End AiService.

(** The providers a log shows as attempted, in order. *)
Definition attempted (logged : list log) : list AIProvider :=
  omap (fun line => match line with
                    | Attempting provider => Some provider
                    | _ => None
                    end) logged.

(** The name [get_available_ai_providers] gives a provider. *)
Definition display_name (provider : AIProvider) : string :=
  match provider with
  | GEMINI => "Gemini"
  | GROQ => "Groq"
  | HUGGINGFACE => "HuggingFace"
  end.

Definition succeeds {A} (r : result A) : bool :=
  match r with
  | Return _ => true
  | Raise _ => false
  end.

End AiService.

(** ** [schemas.py]: the password of a registration request *)

Module Schemas.

(** The validator [password_strength] of [UserRegister]. *)
Definition password_strength `{UnicodeStr} (v : pystr) : result pystr :=
  if negb (existsb isupper v) then
    Raise (OtherError "ValueError"
             "Password must contain at least one uppercase letter")
  else if negb (existsb islower v) then
    Raise (OtherError "ValueError"
             "Password must contain at least one lowercase letter")
  else if negb (existsb isdigit v) then
    Raise (OtherError "ValueError"
             "Password must contain at least one number")
  else Return v.

(** The declaration [Field(..., min_length=8, max_length=100)]. *)
Definition password_min_length : nat := 8.
Definition password_max_length : nat := 100.

(** Whether a registration request with this password passes validation:
    the length bounds of the field and then the validator. *)
Definition UserRegister_accepts_password `{UnicodeStr} (v : pystr) : bool :=
  (password_min_length <=? List.length v)%nat
  && (List.length v <=? password_max_length)%nat
  && match password_strength v with
     | Return _ => true
     | Raise _ => false
     end.

End Schemas.

(** ** [models/faq.py] and [routes/chatbot.py] *)

Module FAQ.
Record t := {
  id : Z;
  question : pystr;
  answer : pystr;
  category : option pystr;
  is_active : bool
}.
End FAQ.

(** The query of [get_relevant_faqs]: the active FAQs whose question
    matches the pattern under ILIKE, at most [limit] of them. *)
Class FaqStore `{Orm} := {
  active_faqs_ilike : Session -> pystr -> nat -> list FAQ.t
}.

Module Chatbot.
Import PyText.

(** An entry of the returned list: a dictionary with the keys
    [question] and [answer]. *)
Record faq_dict := { dict_question : pystr; dict_answer : pystr }.

Section Chatbot.
Context `{UnicodeStr} `{FaqStore}.

(** The words of the question longer than three characters, lowered. *)
Definition keywords_of (question : pystr) : list pystr :=
  map str_lower
      (List.filter (fun word => (3 <? List.length word)%nat)
                   (str_split question)).

(** The pattern of the f-string: the keyword between two percent signs. *)
Definition ilike_pattern (keyword : pystr) : pystr :=
  (py "%" ++ keyword ++ py "%")%list.

(** [{faq.id: faq for faq in faqs}]. *)
Definition dict_by_id (faqs : list FAQ.t) : list (Z * FAQ.t) :=
  fold_left (fun d faq => dict_put (FAQ.id faq) faq d) faqs [].

(** The result with the patterns of the queries sent, in order. *)
Definition get_relevant_faqs (db : Session) (question : pystr) (limit : Z)
    : list pystr * list faq_dict :=
  let keywords := keywords_of question in
  match keywords with
  | [] => ([], [])
  | _ =>
      let searched := firstn 3 keywords in
      let faqs :=
        flat_map (fun keyword =>
                    active_faqs_ilike db (ilike_pattern keyword) 2)
                 searched in
      let unique_faqs := slice_to (map snd (dict_by_id faqs)) limit in
      (map ilike_pattern searched,
       map (fun faq => {| dict_question := FAQ.question faq;
                          dict_answer := FAQ.answer faq |}) unique_faqs)
  end.

End Chatbot.
End Chatbot.

(** ** Small instances for the further collaborators *)

Module Sample2.
Import Password.

(** Case mapping and classes restricted to ASCII. *)
Definition ascii_lower (c : codepoint) : codepoint :=
  if cls_A_Z c then (c + 32)%N else c.

Definition ascii_unicode : UnicodeStr := {|
  str_lower := map ascii_lower;
  isupper := cls_A_Z;
  islower := cls_a_z;
  isdigit := cls_digit
|}.

(** Gemini is out of quota, Groq answers. *)
Definition flaky_sdk : AiSdk := {|
  float := unit;
  genai_imported := true;
  Groq_imported := true;
  genai_configure key model := Return tt;
  Groq_client key := Return tt;
  _generate_gemini prompt system_message :=
    Raise (OtherError "ResourceExhausted" "quota exceeded");
  _generate_groq prompt max_tokens temperature system_message :=
    Return (py "Drink water." ++ prompt)%list;
  _generate_huggingface prompt max_tokens := Return prompt
|}.

Definition app_settings : AppSettings.t := {|
  AppSettings.jwt := default_settings;
  AppSettings.ENVIRONMENT := "development";
  AppSettings.DEBUG := true;
  AppSettings.GEMINI_API_KEY := "g-key";
  AppSettings.GROQ_API_KEY := "q-key";
  AppSettings.HUGGINGFACE_API_KEY := EmptyString;
  AppSettings.GEMINI_MODEL := "gemini-pro";
  AppSettings.GROQ_MODEL := "mixtral-8x7b-32768";
  AppSettings.HUGGINGFACE_MODEL := "meta-llama/Llama-2-70b-chat-hf"
|}.

Definition faq_table : list FAQ.t :=
  [ {| FAQ.id := 1; FAQ.question := py "what is diabetes mellitus";
       FAQ.answer := py "A metabolic disease."; FAQ.category := None;
       FAQ.is_active := true |};
    {| FAQ.id := 2; FAQ.question := py "symptoms of diabetes";
       FAQ.answer := py "Thirst and fatigue."; FAQ.category := None;
       FAQ.is_active := true |};
    {| FAQ.id := 3; FAQ.question := py "symptoms of influenza";
       FAQ.answer := py "Fever and cough."; FAQ.category := None;
       FAQ.is_active := false |} ].

(** The pattern without its two percent signs. *)
Definition pattern_keyword (pattern : pystr) : pystr :=
  removelast (tl pattern).

Definition table_faqs : @FaqStore Sample.table_orm := {|
  active_faqs_ilike db pattern limit :=
    firstn limit
      (List.filter (fun faq =>
                 FAQ.is_active faq
                 && PyText.contains (pattern_keyword pattern)
                      (map ascii_lower (FAQ.question faq)))
              faq_table)
|}.

(** The claims of the expired token of the module's own demonstration:
    issued at time 0 for minus one second. *)
Definition stale_claims : gmap string value :=
  JwtHandler.to_encode default_settings
    (<["user_id" := VInt 123]> ∅) (Some (timedelta_seconds (-1))) 0.

Definition stale_book : list (gmap string value * string) :=
  [ (stale_claims, "stale.token.sig") ].

(** A second token for Alice whose role claim says admin. *)
Definition admin_claims : gmap string value :=
  JwtHandler.to_encode default_settings
    (JwtHandler.token_data 123 "a@b.com" "admin") None 0.

Definition role_book : list (gmap string value * string) :=
  [ (Sample.alice_claims, "alice.token.sig");
    (admin_claims, "alice.admin.sig") ].

Definition alice_login : UserLogin.t := {|
  UserLogin.email := "a@b.com";
  UserLogin.password := py "StrongP@ss123"
|}.

Definition alice_response : UserResponse.t := {|
  UserResponse.id := 123;
  UserResponse.email := "a@b.com";
  UserResponse.name := "Alice";
  UserResponse.role := "user";
  UserResponse.created_at := 0
|}.

Definition alice_token_response : TokenResponse.t := {|
  TokenResponse.access_token := "alice.token.sig";
  TokenResponse.token_type := "bearer";
  TokenResponse.user := alice_response
|}.

End Sample2.

(** ** Properties of the password manager *)

Section PasswordProperties.
Import Password PasswordSpec.

Lemma re_search_true (cls : codepoint -> bool) (s : pystr) :
  re_search cls s = true <-> exists c, In c s /\ cls c = true.
Proof. unfold re_search. apply existsb_exists. Qed.

Lemma cls_special_spec (c : codepoint) :
  cls_special c = true <-> In c special_characters.
Proof.
  unfold cls_special. rewrite existsb_exists. split.
  - intros (x & Hin & Heq). apply N.eqb_eq in Heq. now subst.
  - intros Hin. exists c. split; [assumption | apply N.eqb_refl].
Qed.

(** The code and the ordered rule list of the specification agree on every
    password. *)
Lemma validate_password_strength_first_failing (p : pystr) :
  validate_password_strength p = validate_strength p.
Proof.
  unfold validate_password_strength, validate_strength, first_failing_rule.
  cbn [rules List.find fst snd fmap option_fmap option_map].
  destruct (List.length p <? 8)%nat; cbn; [reflexivity |].
  destruct (re_search cls_A_Z p); cbn; [| reflexivity].
  destruct (re_search cls_a_z p); cbn; [| reflexivity].
  destruct (re_search cls_digit p); cbn; [| reflexivity].
  destruct (re_search cls_special p); cbn; reflexivity.
Qed.

Lemma validate_password_strength_accepts (p : pystr) :
  validate_password_strength p = (true, EmptyString) <->
  passes_every_rule p = true.
Proof.
  unfold validate_password_strength, passes_every_rule.
  cbn [rules forallb fst snd].
  destruct (List.length p <? 8)%nat; cbn; [split; discriminate |].
  destruct (re_search cls_A_Z p); cbn; [| split; discriminate].
  destruct (re_search cls_a_z p); cbn; [| split; discriminate].
  destruct (re_search cls_digit p); cbn; [| split; discriminate].
  destruct (re_search cls_special p); cbn; split; try discriminate;
    reflexivity.
Qed.

Lemma message_of_inj (rule rule' : Rule) :
  message_of rule = message_of rule' -> rule = rule'.
Proof. destruct rule, rule'; cbn; intros Heq; congruence. Qed.

Lemma validate_password_strength_first_failing_rule (p : pystr) :
  validate_password_strength p
  = match first_failing p with
    | Some rule => (false, message_of rule)
    | None => (true, EmptyString)
    end.
Proof.
  unfold validate_password_strength, first_failing.
  cbn [rule_order List.find passes].
  replace (8 <=? List.length p)%nat with (negb (List.length p <? 8)%nat)
    by (destruct (Nat.ltb_spec (List.length p) 8),
                 (Nat.leb_spec 8 (List.length p)); cbn; lia || reflexivity).
  destruct (List.length p <? 8)%nat; cbn; [reflexivity |].
  destruct (re_search cls_A_Z p); cbn; [| reflexivity].
  destruct (re_search cls_a_z p); cbn; [| reflexivity].
  destruct (re_search cls_digit p); cbn; [| reflexivity].
  destruct (re_search cls_special p); cbn; reflexivity.
Qed.

(** C7, as stated, fails: on the input weak the code returns its own
    message for the length rule, which is not the text the claim gives. *)
Lemma validate_weak_message_differs :
  validate_password_strength (py "weak") <> (false, "at least 8 characters").
Proof. vm_compute. discriminate. Qed.

(** C7, amended: each of the five rules has a message of its own; the code
    applies the rules in the order length, uppercase, lowercase, digit,
    special and returns [false] with the message of the first rule that
    fails; it returns [true] with the empty message exactly when every rule
    passes; on the input weak it returns [false] with the message of the
    length rule, and on StrongP@ss123 it returns [true] with the empty
    message. The wording of the messages is left open. *)
Theorem validate_password_strength_rule_order :
  exists message : Rule -> string,
    (forall rule rule', message rule = message rule' -> rule = rule') /\
    (forall p,
       validate_password_strength p
       = match first_failing p with
         | Some rule => (false, message rule)
         | None => (true, EmptyString)
         end) /\
    (forall p, validate_password_strength p = (true, EmptyString) <->
               passes_every_rule p = true) /\
    validate_password_strength (py "weak") = (false, message MinLength) /\
    validate_password_strength (py "StrongP@ss123") = (true, EmptyString).
Proof.
  exists message_of.
  split; [exact message_of_inj |].
  split; [exact validate_password_strength_first_failing_rule |].
  split; [exact validate_password_strength_accepts |].
  split; vm_compute; reflexivity.
Qed.

(** C2, as stated, fails: the password Passw0rd-x has ten characters, an
    uppercase letter, a lowercase letter, a digit and the hyphen, which is
    neither alphanumeric nor white space; the code rejects it for want of a
    special character. *)
Lemma hyphen_is_not_a_special_character :
  let p := py "Passw0rd-x" in
  (8 <= List.length p)%nat /\
  re_search cls_A_Z p = true /\
  re_search cls_a_z p = true /\
  re_search cls_digit p = true /\
  re_search ascii_special p = true /\
  validate_password_strength p
    = (false, "Password must contain at least one special character").
Proof. vm_compute. repeat split; try reflexivity; lia. Qed.

(** C2, amended: for every password of length at least 8 that contains an
    uppercase letter (A-Z), a lowercase letter (a-z) and a digit, the code
    accepts it if and only if it contains at least one special character,
    where a special character is one of the twenty characters
    ! @ # $ % ^ & * ( ) , . ? (double quote) : { } | < >. *)
Theorem validate_password_strength_special (p : pystr) :
  (8 <= List.length p)%nat ->
  re_search cls_A_Z p = true ->
  re_search cls_a_z p = true ->
  re_search cls_digit p = true ->
  (validate_password_strength p = (true, EmptyString) <->
   exists c, In c p /\ In c special_characters).
Proof.
  intros Hlen Hup Hlow Hdig.
  unfold validate_password_strength.
  replace (List.length p <? 8)%nat with false
    by (symmetry; apply Nat.ltb_ge; exact Hlen).
  rewrite Hup, Hlow, Hdig. cbn [negb].
  destruct (re_search cls_special p) eqn:Hsp; cbn [negb].
  - split; [intros _ | reflexivity].
    apply re_search_true in Hsp as (c & Hin & Hc).
    exists c. split; [exact Hin | now apply cls_special_spec].
  - split; [discriminate |].
    intros (c & Hin & Hc). exfalso.
    assert (re_search cls_special p = true) as Habs.
    { apply re_search_true. exists c. split; [exact Hin |].
      now apply cls_special_spec. }
    congruence.
Qed.

Lemma validate_password_strength_special_witness :
  validate_password_strength (py "StrongP@ss123") = (true, EmptyString) <->
  exists c, In c (py "StrongP@ss123") /\ In c special_characters.
Proof.
  apply (validate_password_strength_special (py "StrongP@ss123")).
  - vm_compute. lia.
  - vm_compute. reflexivity.
  - vm_compute. reflexivity.
  - vm_compute. reflexivity.
Defined.

End PasswordProperties.

(** ** Properties of the token service *)

Section TokenProperties.
Context `{JoseLib} (settings : Settings).
Import JwtHandler.

Lemma to_encode_exp_default (data : gmap string value) (utcnow : Z) :
  to_encode settings data None utcnow !! "exp"
  = Some (VDatetime (default_expire settings utcnow)).
Proof. unfold to_encode. apply lookup_insert_eq. Qed.

Lemma to_encode_exp_custom (data : gmap string value) (delta : timedelta)
    (utcnow : Z) :
  delta <> 0%Z ->
  to_encode settings data (Some delta) utcnow !! "exp"
  = Some (VDatetime (utcnow + delta)).
Proof.
  intros Hd. unfold to_encode, timedelta_truthy.
  destruct (Z.eqb_spec delta 0) as [-> | _]; [contradiction |].
  cbn [negb]. apply lookup_insert_eq.
Qed.

Lemma to_encode_other (data : gmap string value)
    (expires_delta : option timedelta) (utcnow : Z) (key : string) :
  key <> "exp" ->
  to_encode settings data expires_delta utcnow !! key = data !! key.
Proof.
  intros Hk. unfold to_encode. apply lookup_insert_ne. congruence.
Qed.

Lemma jose_claims_other (claims : gmap string value) (key : string) :
  key <> "exp" -> key <> "iat" -> key <> "nbf" ->
  jose_claims claims !! key = claims !! key.
Proof.
  intros He Hi Hn. unfold jose_claims. cbn [foldr].
  repeat match goal with
  | |- context [match ?m !! ?k with _ => _ end] =>
      destruct (m !! k) as [[]|] eqn:?
  end;
  rewrite ?lookup_insert_ne by congruence; reflexivity.
Qed.

Lemma jose_claims_exp (claims : gmap string value) (t : Z) :
  claims !! "exp" = Some (VDatetime t) ->
  jose_claims claims !! "exp" = Some (VInt (timegm t)).
Proof.
  intros Hexp. unfold jose_claims. cbn [foldr].
  set (m1 := match claims !! "nbf" with
             | Some (VDatetime t0) => <["nbf" := VInt (timegm t0)]> claims
             | _ => claims end).
  assert (m1 !! "exp" = Some (VDatetime t)) as H1.
  { subst m1. destruct (claims !! "nbf") as [[]|]; try exact Hexp.
    rewrite lookup_insert_ne by discriminate. exact Hexp. }
  set (m2 := match m1 !! "iat" with
             | Some (VDatetime t0) => <["iat" := VInt (timegm t0)]> m1
             | _ => m1 end).
  assert (m2 !! "exp" = Some (VDatetime t)) as H2.
  { subst m2. destruct (m1 !! "iat") as [[]|]; try exact H1.
    rewrite lookup_insert_ne by discriminate. exact H1. }
  rewrite H2. apply lookup_insert_eq.
Qed.

Lemma dict_truthy_lookup (d : gmap string value) (key : string) (v : value) :
  d !! key = Some v -> dict_truthy d = true.
Proof.
  intros Hk. unfold dict_truthy.
  rewrite bool_decide_eq_false_2; [reflexivity |].
  intros ->. rewrite lookup_empty in Hk. discriminate.
Qed.

Lemma timegm_mono (a b : Z) : (a <= b)%Z -> (timegm a <= timegm b)%Z.
Proof. intros Hab. unfold timegm. apply Z.div_le_mono; lia. Qed.

(** What [verify_token] does with each answer of [jwt.decode]. *)
Lemma verify_token_decoded (token : string) (utcnow : Z)
    (payload : gmap string value) :
  jwt_decode token (JWT_SECRET settings) [JWT_ALGORITHM settings] utcnow
    = Return payload ->
  verify_token settings token utcnow = ([], Return (Some payload)).
Proof. intros Hd. unfold verify_token. rewrite Hd. reflexivity. Qed.

Lemma verify_token_rejected (token : string) (utcnow : Z) (e : exn) :
  jwt_decode token (JWT_SECRET settings) [JWT_ALGORITHM settings] utcnow
    = Raise e ->
  isinstance_JWTError e = true ->
  verify_token settings token utcnow
  = ([Printed ("JWT verification failed: " +:+ str_exn e)], Return None).
Proof.
  intros Hd He. unfold verify_token. rewrite Hd, He. reflexivity.
Qed.

(** An exception of another class is not caught. *)
Lemma verify_token_propagates (token : string) (utcnow : Z) (e : exn) :
  jwt_decode token (JWT_SECRET settings) [JWT_ALGORITHM settings] utcnow
    = Raise e ->
  isinstance_JWTError e = false ->
  verify_token settings token utcnow = ([], Raise e).
Proof.
  intros Hd He. unfold verify_token. rewrite Hd, He. reflexivity.
Qed.

(** C1, at the input where the code departs from the claim: the handler
    of [verify_token] catches [JWTError] and nothing else. When [jwt.decode]
    raises an exception of another class, as it does with [RecursionError]
    on a token whose header is nested too deep, [verify_token] prints
    nothing and raises that exception; it does not return [None]. *)
Theorem verify_token_raises_what_it_does_not_catch (token : string)
    (utcnow : Z) (e : exn) :
  jwt_decode token (JWT_SECRET settings) [JWT_ALGORITHM settings] utcnow
    = Raise e ->
  isinstance_JWTError e = false ->
  verify_token settings token utcnow = ([], Raise e) /\
  outcome (verify_token settings token utcnow) <> Return None.
Proof.
  intros Hd He. rewrite (verify_token_propagates token utcnow e Hd He).
  split; [reflexivity | discriminate].
Qed.

(** What C1 says does hold for each token on which [jwt.decode] returns or
    raises a [JWTError]: [verify_token] returns the claims, or prints the
    failure and returns [None]. *)
Lemma verify_token_returns (token : string) (utcnow : Z) :
  (forall e,
     jwt_decode token (JWT_SECRET settings) [JWT_ALGORITHM settings] utcnow
       = Raise e -> isinstance_JWTError e = true) ->
  exists payload, outcome (verify_token settings token utcnow) = Return payload.
Proof.
  intros Hjose.
  destruct (jwt_decode token (JWT_SECRET settings) [JWT_ALGORITHM settings]
              utcnow) as [payload | e] eqn:Hd.
  - exists (Some payload). now rewrite (verify_token_decoded _ _ _ Hd).
  - exists None. now rewrite (verify_token_rejected _ _ _ Hd (Hjose _ eq_refl)).
Qed.

(** C6, at the input where the code departs from the claim: a caller who
    passes the custom duration [timedelta(0)] gets a token whose [exp] is
    the issuance time plus the default lifetime, not the issuance time plus
    the duration supplied. *)
Theorem create_access_token_zero_delta (data : gmap string value)
    (utcnow : Z) :
  to_encode settings data (Some 0%Z) utcnow !! "exp"
    = Some (VDatetime (default_expire settings utcnow)) /\
  to_encode default_settings data (Some 0%Z) utcnow !! "exp"
    = Some (VDatetime (utcnow + timedelta_minutes 1440)) /\
  to_encode default_settings data (Some 0%Z) utcnow !! "exp"
    <> Some (VDatetime (utcnow + 0)).
Proof.
  unfold to_encode. cbn. rewrite !lookup_insert_eq.
  split; [reflexivity |]. split; [reflexivity |].
  intros [= Heq]. unfold timedelta_minutes in Heq. lia.
Qed.

(** The two parts of C6 that the code keeps. *)
Lemma create_access_token_exp (data : gmap string value) (utcnow : Z) :
  to_encode settings data None utcnow !! "exp"
    = Some (VDatetime (default_expire settings utcnow)) /\
  forall delta, delta <> 0%Z ->
    to_encode settings data (Some delta) utcnow !! "exp"
    = Some (VDatetime (utcnow + delta)).
Proof.
  split; [apply to_encode_exp_default |].
  intros delta Hd. now apply to_encode_exp_custom.
Qed.

(** Issuing then verifying, for claims the library carries. *)
Lemma verify_issued (data : gmap string value)
    (expires_delta : option timedelta) (t0 t1 expire : Z) :
  to_encode settings data expires_delta t0 !! "exp"
    = Some (VDatetime expire) ->
  (t1 <= expire)%Z ->
  jose_round_trip (to_encode settings data expires_delta t0)
                  (JWT_SECRET settings) (JWT_ALGORITHM settings) ->
  exists token payload,
    create_access_token settings data expires_delta t0 = Return token /\
    verify_token settings token t1 = ([], Return (Some payload)) /\
    dict_truthy payload = true /\
    dict_get payload "user_id" = dict_get data "user_id".
Proof.
  intros Hexp Hle (token & Henc & Hdec).
  exists token, (jose_claims (to_encode settings data expires_delta t0)).
  split; [exact Henc |].
  split.
  { apply verify_token_decoded. apply (Hdec t1 expire Hexp).
    now apply timegm_mono. }
  split.
  { eapply dict_truthy_lookup. apply jose_claims_exp. exact Hexp. }
  unfold dict_get.
  rewrite jose_claims_other by discriminate.
  rewrite to_encode_other by discriminate. reflexivity.
Qed.

(** C5, amended: for every claim set [c] that the library carries and
    every positive duration [d] that leads to a representable expiry, a
    token issued from [c] at time [t0] verifies at any time [t1] up to its
    expiry, and the payload has the [user_id] of [c]; when the library
    carries the claims of the user token issued for user 123,
    [extract_user_id] gives 123 back. *)
Theorem issue_verify_round_trip :
  (forall (c : gmap string value) (d : timedelta) (t0 t1 : Z),
     (0 < d)%Z ->
     representable (t0 + d) ->
     (t1 <= t0 + d)%Z ->
     jose_round_trip (to_encode settings c (Some d) t0)
                     (JWT_SECRET settings) (JWT_ALGORITHM settings) ->
     exists token payload,
       create_access_token settings c (Some d) t0 = Return token /\
       outcome (verify_token settings token t1) = Return (Some payload) /\
       dict_get payload "user_id" = dict_get c "user_id") /\
  (forall (t0 t1 : Z),
     representable (default_expire settings t0) ->
     (t1 <= default_expire settings t0)%Z ->
     jose_round_trip
       (to_encode settings (token_data 123 "a@b.com" "user") None t0)
       (JWT_SECRET settings) (JWT_ALGORITHM settings) ->
     exists token,
       create_user_token settings 123 "a@b.com" "user" t0 = Return token /\
       outcome (extract_user_id settings token t1) = Return (VInt 123)).
Proof.
  split.
  - intros c d t0 t1 Hd _ Ht Hrt.
    assert (d <> 0%Z) as Hnz by lia.
    destruct (verify_issued c (Some d) t0 t1 (t0 + d)
                (to_encode_exp_custom c d t0 Hnz) Ht Hrt)
      as (token & payload & Henc & Hver & _ & Huid).
    exists token, payload. split; [exact Henc |].
    split; [now rewrite Hver | exact Huid].
  - intros t0 t1 _ Ht Hrt.
    destruct (verify_issued (token_data 123 "a@b.com" "user") None t0 t1
                (default_expire settings t0)
                (to_encode_exp_default _ t0) Ht Hrt)
      as (token & payload & Henc & Hver & Htruthy & Huid).
    exists token. split; [exact Henc |].
    unfold extract_user_id. rewrite Hver. cbn. rewrite Htruthy. cbn.
    rewrite Huid. reflexivity.
Qed.

End TokenProperties.

(** ** The instances meet what is asked of the library *)

Section SampleProperties.
Import Sample.


Lemma alice_claims_exp :
  alice_claims !! "exp" = Some (VDatetime 86400000000).
Proof. apply (to_encode_exp_default default_settings). Qed.

Lemma book_carries_alice :
  @jose_round_trip (book_jose book) alice_claims
    (JWT_SECRET default_settings) (JWT_ALGORITHM default_settings).
Proof.
  exists "alice.token.sig". split.
  - cbn. rewrite bool_decide_eq_true_2 by reflexivity. reflexivity.
  - intros now t Hexp Hle.
    rewrite alice_claims_exp in Hexp. injection Hexp as <-.
    cbn -[jose_claims alice_claims].
    rewrite (jose_claims_exp alice_claims _ alice_claims_exp).
    replace (timegm 86400000000 <? timegm now)%Z with false
      by (symmetry; apply Z.ltb_ge; exact Hle).
    reflexivity.
Qed.

Lemma startswith_nested_header (n k : nat) (rest : string) :
  startswith (nested_header (n + k) +:+ rest) (nested_header n) = true.
Proof.
  induction n as [| n IH]; [reflexivity |].
  cbn [Nat.add nested_header].
  change ("W1tb" +:+ nested_header (n + k)) with
    (String "W" (String "1" (String "t" (String "b" (nested_header (n + k)))))).
  change ("W1tb" +:+ nested_header n) with
    (String "W" (String "1" (String "t" (String "b" (nested_header n))))).
  cbn. exact IH.
Qed.

Lemma no_space_nested_header (n : nat) (rest : string) :
  no_space rest = true -> no_space (nested_header n +:+ rest) = true.
Proof.
  intros Hrest. induction n as [| n IH]; [exact Hrest |].
  cbn [nested_header].
  change ("W1tb" +:+ nested_header n) with
    (String "W" (String "1" (String "t" (String "b" (nested_header n))))).
  cbn. exact IH.
Qed.

(** The library raises [RecursionError] on the deeply nested token. *)
Lemma strict_jose_nested_token
    (issued : list (gmap string value * string)) (key : string)
    (algorithms : list string) (now : Z) :
  @jwt_decode (strict_jose issued) nested_token key algorithms now
  = Raise (OtherError "RecursionError"
             "maximum recursion depth exceeded while decoding a JSON array from a unicode string").
Proof.
  unfold nested_token. cbn [jwt_decode strict_jose].
  change (34 * 1000)%nat with (334 + (33 * 1000 + 666))%nat.
  rewrite startswith_nested_header. reflexivity.
Qed.

End SampleProperties.

Lemma verify_token_raises_what_it_does_not_catch_witness :
  @JwtHandler.verify_token (Sample.strict_jose Sample.book) default_settings
    Sample.nested_token 0
  = ([], Raise (OtherError "RecursionError"
                  "maximum recursion depth exceeded while decoding a JSON array from a unicode string")).
Proof.
  apply (@verify_token_raises_what_it_does_not_catch
           (Sample.strict_jose Sample.book) default_settings
           Sample.nested_token 0).
  - apply strict_jose_nested_token.
  - reflexivity.
Defined.

(** C5, as stated, fails: the claim set with [user_id] 123 and an audience
    is issued for thirty minutes, and the token is refused at the moment of
    its issuance, because [verify_token] names no audience to [jwt.decode]:
    no payload comes back, so none with [user_id] 123. *)
Lemma audience_claims_do_not_verify :
  (0 < timedelta_minutes 30)%Z /\
  dict_get Sample.audience_data "user_id" = VInt 123 /\
  @JwtHandler.create_access_token (Sample.strict_jose Sample.audience_book)
    default_settings Sample.audience_data (Some (timedelta_minutes 30)) 0
  = Return "audience.token.sig" /\
  @JwtHandler.verify_token (Sample.strict_jose Sample.audience_book)
    default_settings "audience.token.sig" 0
  = ([Printed "JWT verification failed: Invalid audience"], Return None).
Proof.
  split; [reflexivity |]. split; [reflexivity |].
  split; vm_compute; reflexivity.
Qed.

Lemma issue_verify_round_trip_witness :
  exists token payload,
    @JwtHandler.create_access_token (Sample.book_jose Sample.book) default_settings
      (JwtHandler.token_data 123 "a@b.com" "user") (Some 86400000000%Z) 0
      = Return token /\
    outcome (@JwtHandler.verify_token (Sample.book_jose Sample.book)
               default_settings token 5) = Return (Some payload) /\
    dict_get payload "user_id"
      = dict_get (JwtHandler.token_data 123 "a@b.com" "user") "user_id".
Proof.
  apply (proj1 (@issue_verify_round_trip (Sample.book_jose Sample.book)
                  default_settings)).
  - lia.
  - unfold representable, datetime_min, datetime_max. lia.
  - lia.
  - exact book_carries_alice.
Defined.

(** ** Properties of the access guards *)

Section GuardProperties.
Import Dependencies.

Lemma require_role_member (allowed_roles : list UserRole) (u : User.t) :
  User.role u ∈ allowed_roles -> require_role allowed_roles u = Return u.
Proof.
  intros Hin. unfold require_role.
  rewrite bool_decide_eq_false_2; [reflexivity |]. intros Hn. now apply Hn.
Qed.

Lemma require_role_not_member (allowed_roles : list UserRole) (u : User.t) :
  User.role u ∉ allowed_roles ->
  require_role allowed_roles u
  = Raise (HTTPException 403
             ("Access denied. Required roles: "
              +:+ repr_str_list (map UserRole_value allowed_roles)) None).
Proof.
  intros Hn. unfold require_role.
  rewrite bool_decide_eq_true_2 by exact Hn. reflexivity.
Qed.

(** C3: with the allowed set {ADMIN}, [require_role] refuses an identity of
    role USER with status 403 and passes an identity of role ADMIN through;
    in general it passes exactly the identities whose role is listed, so an
    ADMIN is refused where only USER is listed. *)
Theorem require_role_exact_match :
  (forall u, User.role u = USER ->
     require_role [ADMIN] u
     = Raise (HTTPException 403
                "Access denied. Required roles: ['admin']" None) /\
     access_outcome (require_role [ADMIN] u) = Forbidden) /\
  (forall u, User.role u = ADMIN ->
     require_role [ADMIN] u = Return u /\
     access_outcome (require_role [ADMIN] u) = Authorized u) /\
  (forall allowed_roles u,
     (User.role u ∈ allowed_roles ->
      access_outcome (require_role allowed_roles u) = Authorized u) /\
     (User.role u ∉ allowed_roles ->
      access_outcome (require_role allowed_roles u) = Forbidden)) /\
  (forall u, User.role u = ADMIN ->
     access_outcome (require_role [USER] u) = Forbidden).
Proof.
  assert (forall allowed_roles u,
     (User.role u ∈ allowed_roles ->
      access_outcome (require_role allowed_roles u) = Authorized u) /\
     (User.role u ∉ allowed_roles ->
      access_outcome (require_role allowed_roles u) = Forbidden)) as Hgen.
  { intros allowed_roles u. split; intros Hin.
    - now rewrite require_role_member.
    - now rewrite require_role_not_member. }
  assert (forall u, User.role u = USER -> User.role u ∉ [ADMIN]) as Huser.
  { intros u -> Hin. apply list_elem_of_singleton in Hin. discriminate. }
  assert (forall u, User.role u = ADMIN -> User.role u ∈ [ADMIN]) as Hadmin.
  { intros u ->. apply list_elem_of_singleton. reflexivity. }
  split; [| split; [| split]].
  - intros u Hu. split.
    + now rewrite require_role_not_member by auto.
    + apply Hgen. auto.
  - intros u Hu. split.
    + apply require_role_member. auto.
    + apply Hgen. auto.
  - exact Hgen.
  - intros u Hu. apply Hgen. rewrite Hu. intros Hin.
    apply list_elem_of_singleton in Hin. discriminate.
Qed.

Lemma require_role_exact_match_witness :
  (require_role [ADMIN] Sample.alice
   = Raise (HTTPException 403
              "Access denied. Required roles: ['admin']" None) /\
   access_outcome (require_role [ADMIN] Sample.alice) = Forbidden) /\
  (require_role [ADMIN] Sample.root = Return Sample.root /\
   access_outcome (require_role [ADMIN] Sample.root) = Authorized Sample.root).
Proof.
  split.
  - apply (proj1 require_role_exact_match Sample.alice). reflexivity.
  - apply (proj1 (proj2 require_role_exact_match) Sample.root). reflexivity.
Defined.

Lemma get_current_admin_outcome (u : User.t) :
  access_outcome (get_current_admin u)
  = if bool_decide (User.role u = ADMIN) then Authorized u else Forbidden.
Proof.
  unfold get_current_admin. destruct (bool_decide (User.role u = ADMIN));
    reflexivity.
Qed.

Lemma require_role_admin_outcome (u : User.t) :
  access_outcome (require_role [ADMIN] u)
  = if bool_decide (User.role u = ADMIN) then Authorized u else Forbidden.
Proof.
  destruct (bool_decide (User.role u = ADMIN)) eqn:Hadmin.
  - apply bool_decide_eq_true_1 in Hadmin.
    rewrite require_role_member; [reflexivity |].
    rewrite Hadmin. apply list_elem_of_singleton. reflexivity.
  - apply bool_decide_eq_false_1 in Hadmin.
    rewrite require_role_not_member; [reflexivity |].
    intros Hin. apply list_elem_of_singleton in Hin. contradiction.
Qed.

(** The two guards word their refusal differently. *)
Lemma admin_guards_differ_in_detail (u : User.t) :
  User.role u <> ADMIN ->
  get_current_admin u <> require_role [ADMIN] u.
Proof.
  intros Hn. unfold get_current_admin.
  rewrite bool_decide_eq_false_2 by exact Hn. cbn [negb].
  rewrite require_role_not_member.
  - cbn. discriminate.
  - intros Hin. apply list_elem_of_singleton in Hin. contradiction.
Qed.

Section Chain.
Context `{JoseLib} `{Orm} (settings : Settings).

Lemma depends_on_current_user_outcome (guard : User.t -> result User.t)
    (credentials : HTTPAuthorizationCredentials.t) (db : Session)
    (utcnow : Z) :
  depends_on_current_user settings guard credentials db utcnow
  = match get_current_user settings credentials db utcnow with
    | (tr, Return u) => (tr, guard u)
    | (tr, Raise e) => (tr, Raise e)
    end.
Proof.
  unfold depends_on_current_user, bind, lift.
  destruct (get_current_user settings credentials db utcnow) as [tr [u | e]];
    [| reflexivity].
  now rewrite app_nil_r.
Qed.

(** C9: on every resolved identity [get_current_admin] and [require_role]
    with the allowed set {ADMIN} end the same way, passing the identity
    through or signalling Forbidden; the same holds when the framework
    resolves the identity first. *)
Theorem get_current_admin_is_require_role_admin :
  (forall u,
     access_outcome (get_current_admin u)
     = access_outcome (require_role [ADMIN] u)) /\
  (forall credentials db utcnow,
     let admin :=
       depends_on_current_user settings get_current_admin
         credentials db utcnow in
     let by_role :=
       depends_on_current_user settings (require_role [ADMIN])
         credentials db utcnow in
     trace admin = trace by_role /\
     access_outcome (outcome admin) = access_outcome (outcome by_role)).
Proof.
  assert (forall u,
     access_outcome (get_current_admin u)
     = access_outcome (require_role [ADMIN] u)) as Hsame.
  { intros u.
    now rewrite get_current_admin_outcome, require_role_admin_outcome. }
  split; [exact Hsame |].
  intros credentials db utcnow. cbn zeta.
  rewrite !depends_on_current_user_outcome.
  destruct (get_current_user settings credentials db utcnow) as [tr [u | e]];
    cbn; [| split; reflexivity].
  split; [reflexivity | apply Hsame].
Qed.

End Chain.
End GuardProperties.

(** ** Properties of identity resolution *)

Section HeaderParsing.

Lemma split_not_nil (sep : ascii) (s : string) : split sep s <> [].
Proof.
  destruct s as [| c rest]; cbn; [discriminate |].
  destruct (Ascii.eqb c sep); [discriminate |].
  destruct (split sep rest); discriminate.
Qed.

Lemma split_no_space (token : string) :
  no_space token = true -> split " " token = [token].
Proof.
  induction token as [| c rest IH]; cbn; [reflexivity |].
  intros Hns. apply andb_true_iff in Hns as [Hc Hrest].
  apply negb_true_iff in Hc. rewrite Hc, (IH Hrest). reflexivity.
Qed.

Lemma split_bearer (rest : string) :
  split " " ("Bearer " +:+ rest) = "Bearer" :: split " " rest.
Proof. reflexivity. Qed.

Lemma startswith_bearer (h : string) :
  startswith h "Bearer " = true -> exists rest, h = "Bearer " +:+ rest.
Proof.
  do 7 (destruct h as [| c h]; cbn [startswith]; [discriminate |];
        match goal with
        | |- context [Ascii.eqb ?a c] =>
            destruct (Ascii.eqb_spec a c) as [<- |]; [| discriminate]
        end; cbn [andb]).
  intros _. exists h. reflexivity.
Qed.

(** After the prefix test the second field of the split always exists: the
    subscript cannot raise. *)
Lemma bearer_token_exists (h : string) :
  startswith h "Bearer " = true ->
  exists token, subscript (split " " h) 1 = Return token.
Proof.
  intros Hp. destruct (startswith_bearer h Hp) as [rest ->].
  rewrite split_bearer. unfold subscript. cbn [nth_error].
  destruct (split " " rest) as [| token fields] eqn:Hs.
  - now apply split_not_nil in Hs.
  - exists token. reflexivity.
Qed.

Lemma bearer_token_no_space (token : string) :
  no_space token = true ->
  startswith ("Bearer " +:+ token) "Bearer " = true /\
  subscript (split " " ("Bearer " +:+ token)) 1 = Return token.
Proof.
  intros Hns. split; [reflexivity |].
  rewrite split_bearer, (split_no_space token Hns). reflexivity.
Qed.

End HeaderParsing.

Section ResolverProperties.
Context `{JoseLib} `{Orm} (settings : Settings).
Import JwtHandler Dependencies.

Lemma bind_ret {A B} (a : A) (k : A -> M B) : bind (ret a) k = k a.
Proof. unfold bind, ret. destruct (k a). reflexivity. Qed.

Lemma startswith_bearer_nonempty (h : string) :
  startswith h "Bearer " = true -> String.eqb h EmptyString = false.
Proof. destruct h; [discriminate | reflexivity]. Qed.

(** The optional resolver on a header that passed the prefix test, in
    terms of the answer of [jwt.decode] on the extracted token. *)
Lemma get_optional_user_bearer (h token : string) (db : Session)
    (utcnow : Z) :
  startswith h "Bearer " = true ->
  subscript (split " " h) 1 = Return token ->
  get_optional_user settings (Some h) db utcnow
  = match jwt_decode token (JWT_SECRET settings) [JWT_ALGORITHM settings]
            utcnow with
    | Return payload =>
        if dict_truthy payload && truthy (dict_get payload "user_id") then
          ([QueryUserById (dict_get payload "user_id")],
           first_user_by_id db (dict_get payload "user_id"))
        else ([], Return None)
    | Raise e =>
        if isinstance_JWTError e then
          ([Printed ("JWT verification failed: " +:+ str_exn e)],
           Return None)
        else ([], Raise e)
    end.
Proof.
  intros Hp Htok. unfold get_optional_user.
  rewrite (startswith_bearer_nonempty h Hp), Hp, Htok. cbn [negb].
  unfold lift. change (@pair (list event) (result string) [] (Return token))
    with (ret token).
  rewrite bind_ret. unfold verify_token.
  destruct (jwt_decode token _ _ utcnow) as [payload | e].
  - rewrite bind_ret.
    destruct (dict_truthy payload); cbn [negb andb]; [| reflexivity].
    destruct (truthy (dict_get payload "user_id")); cbn [negb];
      [| reflexivity].
    unfold query_user_by_id.
    destruct (first_user_by_id db (dict_get payload "user_id"));
      reflexivity.
  - destruct (isinstance_JWTError e); reflexivity.
Qed.

(** C4, at the input where the code departs from the claim: a Bearer
    header whose token makes [jwt.decode] raise an exception that is no
    [JWTError], as a header nested too deep does with [RecursionError],
    carries a token that fails verification; [get_optional_user] raises that
    exception and does not return [None]. *)
Theorem get_optional_user_raises_on_unverifiable_token (h token : string)
    (db : Session) (utcnow : Z) (e : exn) :
  startswith h "Bearer " = true ->
  subscript (split " " h) 1 = Return token ->
  jwt_decode token (JWT_SECRET settings) [JWT_ALGORITHM settings] utcnow
    = Raise e ->
  isinstance_JWTError e = false ->
  get_optional_user settings (Some h) db utcnow = ([], Raise e) /\
  outcome (get_optional_user settings (Some h) db utcnow) <> Return None.
Proof.
  intros Hp Htok Hd He.
  rewrite (get_optional_user_bearer h token db utcnow Hp Htok), Hd, He.
  split; [reflexivity | discriminate].
Qed.

(** The cases of C4 in which the code does return [None]: no header, a
    header that does not start with Bearer and a space, a token on which
    [jwt.decode] raises a [JWTError], a payload without [user_id], and a
    query that finds no row. *)
Lemma get_optional_user_absent_cases (db : Session) (utcnow : Z) :
  get_optional_user settings None db utcnow = ([], Return None) /\
  (forall h, startswith h "Bearer " = false ->
     get_optional_user settings (Some h) db utcnow = ([], Return None)) /\
  (forall h token,
     startswith h "Bearer " = true ->
     subscript (split " " h) 1 = Return token ->
     let resolved := get_optional_user settings (Some h) db utcnow in
     (forall e,
        jwt_decode token (JWT_SECRET settings) [JWT_ALGORITHM settings]
          utcnow = Raise e ->
        isinstance_JWTError e = true ->
        outcome resolved = Return None) /\
     (forall payload,
        jwt_decode token (JWT_SECRET settings) [JWT_ALGORITHM settings]
          utcnow = Return payload ->
        payload !! "user_id" = None ->
        resolved = ([], Return None)) /\
     (forall payload,
        jwt_decode token (JWT_SECRET settings) [JWT_ALGORITHM settings]
          utcnow = Return payload ->
        first_user_by_id db (dict_get payload "user_id") = Return None ->
        outcome resolved = Return None)).
Proof.
  split; [reflexivity |]. split.
  { intros h Hp. unfold get_optional_user. rewrite Hp.
    destruct (String.eqb h EmptyString); reflexivity. }
  intros h token Hp Htok resolved. subst resolved.
  rewrite (get_optional_user_bearer h token db utcnow Hp Htok).
  split; [| split].
  - intros e Hd He. rewrite Hd, He. reflexivity.
  - intros payload Hd Hnone. rewrite Hd. unfold dict_get. rewrite Hnone.
    cbn. rewrite andb_false_r. reflexivity.
  - intros payload Hd Hnone. rewrite Hd, Hnone.
    destruct (dict_truthy payload && truthy (dict_get payload "user_id"));
      reflexivity.
Qed.

(** [get_optional_user] raises no exception of its own, so no 401 and no
    403: what it raises was raised by [jwt.decode] or by the query. *)
Lemma get_optional_user_raises_nothing_of_its_own
    (authorization : option string) (db : Session) (utcnow : Z) (e : exn) :
  outcome (get_optional_user settings authorization db utcnow) = Raise e ->
  (exists token,
     jwt_decode token (JWT_SECRET settings) [JWT_ALGORITHM settings] utcnow
       = Raise e /\ isinstance_JWTError e = false) \/
  (exists user_id, first_user_by_id db user_id = Raise e).
Proof.
  destruct authorization as [h |]; [| discriminate].
  destruct (startswith h "Bearer ") eqn:Hp.
  - destruct (bearer_token_exists h Hp) as [token Htok].
    rewrite (get_optional_user_bearer h token db utcnow Hp Htok).
    destruct (jwt_decode token (JWT_SECRET settings)
                [JWT_ALGORITHM settings] utcnow) as [payload | e'] eqn:Hd.
    + destruct (dict_truthy payload && truthy (dict_get payload "user_id"));
        [| discriminate].
      cbn. intros Hq. right. eauto.
    + destruct (isinstance_JWTError e') eqn:He; [discriminate |].
      cbn. intros [= ->]. left. eauto.
  - unfold get_optional_user. rewrite Hp.
    destruct (String.eqb h EmptyString); discriminate.
Qed.

(** C10: a token that [jwt.decode] accepts and whose payload has [user_id]
    equal to 0 is refused by [get_current_user] with status 401 and detail
    Invalid token payload, and a Bearer header carrying it is resolved to
    [None] by [get_optional_user]; neither queries the database, and both
    end exactly as on an accepted token whose non-empty payload has no
    [user_id] claim. *)
Theorem zero_user_id_is_no_user_id (token : string)
    (payload : gmap string value) (db : Session) (utcnow : Z) :
  jwt_decode token (JWT_SECRET settings) [JWT_ALGORITHM settings] utcnow
    = Return payload ->
  payload !! "user_id" = Some (VInt 0) ->
  get_current_user settings (bearer token) db utcnow
    = ([], Raise (HTTPException 401 "Invalid token payload"
                    (Some [("WWW-Authenticate", "Bearer")]))) /\
  (forall h,
     startswith h "Bearer " = true ->
     subscript (split " " h) 1 = Return token ->
     get_optional_user settings (Some h) db utcnow = ([], Return None)) /\
  (forall token' payload',
     jwt_decode token' (JWT_SECRET settings) [JWT_ALGORITHM settings] utcnow
       = Return payload' ->
     payload' <> ∅ ->
     payload' !! "user_id" = None ->
     get_current_user settings (bearer token') db utcnow
       = get_current_user settings (bearer token) db utcnow /\
     (forall h h',
        startswith h "Bearer " = true ->
        subscript (split " " h) 1 = Return token ->
        startswith h' "Bearer " = true ->
        subscript (split " " h') 1 = Return token' ->
        get_optional_user settings (Some h') db utcnow
        = get_optional_user settings (Some h) db utcnow)).
Proof.
  intros Hd Hzero.
  assert (dict_truthy payload = true) as Htruthy
    by (eapply dict_truthy_lookup; exact Hzero).
  assert (get_current_user settings (bearer token) db utcnow
          = ([], Raise (HTTPException 401 "Invalid token payload"
                          (Some [("WWW-Authenticate", "Bearer")]))))
    as Hcur.
  { unfold get_current_user.
    cbn [bearer HTTPAuthorizationCredentials.credentials].
    rewrite (verify_token_decoded settings token utcnow payload Hd).
    change (@pair (list event) (result (option (gmap string value))) []
              (Return (Some payload))) with (ret (Some payload)).
    rewrite bind_ret, Htruthy. unfold dict_get. rewrite Hzero. reflexivity. }
  assert (forall h,
            startswith h "Bearer " = true ->
            subscript (split " " h) 1 = Return token ->
            get_optional_user settings (Some h) db utcnow
            = ([], Return None)) as Hopt.
  { intros h Hp Htok.
    rewrite (get_optional_user_bearer h token db utcnow Hp Htok), Hd.
    unfold dict_get. rewrite Hzero. cbn. rewrite andb_false_r.
    reflexivity. }
  split; [exact Hcur |]. split; [exact Hopt |].
  intros token' payload' Hd' Hne Hnone.
  rewrite Hcur. split.
  - unfold get_current_user.
    cbn [bearer HTTPAuthorizationCredentials.credentials].
    rewrite (verify_token_decoded settings token' utcnow payload' Hd').
    change (@pair (list event) (result (option (gmap string value))) []
              (Return (Some payload'))) with (ret (Some payload')).
    rewrite bind_ret. unfold dict_truthy.
    rewrite bool_decide_eq_false_2 by exact Hne. cbn [negb].
    unfold dict_get. rewrite Hnone. reflexivity.
  - intros h h' Hp Htok Hp' Htok'.
    rewrite (Hopt h Hp Htok).
    rewrite (get_optional_user_bearer h' token' db utcnow Hp' Htok'), Hd'.
    unfold dict_get. rewrite Hnone. cbn. rewrite andb_false_r.
    reflexivity.
Qed.

End ResolverProperties.

Lemma get_optional_user_raises_on_unverifiable_token_witness :
  @Dependencies.get_optional_user (Sample.strict_jose Sample.book)
    Sample.table_orm default_settings
    (Some ("Bearer " +:+ Sample.nested_token)) Sample.users 0
  = ([], Raise (OtherError "RecursionError"
                  "maximum recursion depth exceeded while decoding a JSON array from a unicode string")).
Proof.
  apply (@get_optional_user_raises_on_unverifiable_token
           (Sample.strict_jose Sample.book) Sample.table_orm default_settings
           ("Bearer " +:+ Sample.nested_token) Sample.nested_token
           Sample.users 0).
  - reflexivity.
  - apply bearer_token_no_space.
    apply (no_space_nested_header (34 * 1000) ".e30.c2ln" eq_refl).
  - apply strict_jose_nested_token.
  - reflexivity.
Defined.

Lemma zero_user_id_is_no_user_id_witness :
  @Dependencies.get_current_user (Sample.book_jose Sample.book) Sample.table_orm
    default_settings (bearer "zero.token.sig") Sample.users 5
  = ([], Raise (HTTPException 401 "Invalid token payload"
                  (Some [("WWW-Authenticate", "Bearer")]))) /\
  @Dependencies.get_optional_user (Sample.book_jose Sample.book) Sample.table_orm
    default_settings (Some "Bearer zero.token.sig") Sample.users 5
  = ([], Return None).
Proof.
  pose proof (@zero_user_id_is_no_user_id (Sample.book_jose Sample.book)
                Sample.table_orm default_settings "zero.token.sig"
                (jose_claims Sample.zero_claims) Sample.users 5) as Hz.
  destruct Hz as (Hcur & Hopt & _).
  - vm_compute. reflexivity.
  - vm_compute. reflexivity.
  - split; [exact Hcur |].
    apply (Hopt "Bearer zero.token.sig"); reflexivity.
Defined.

(** ** Properties of the login route *)

Section LoginProperties.
Context `{JoseLib} `{Orm} `{Passlib} `{Pydantic} (settings : Settings).
Import Routes.

Lemma login_unknown_email (credentials : UserLogin.t) (db : Session)
    (utcnow : Z) :
  first_user_by_email db (UserLogin.email credentials) = Return None ->
  login settings credentials db utcnow
  = ([QueryUserByEmail (UserLogin.email credentials)],
     Raise (HTTPException 401 "Incorrect email or password" None)).
Proof.
  intros Hnone. unfold login, query_user_by_email. rewrite Hnone.
  reflexivity.
Qed.

Lemma login_wrong_password (credentials : UserLogin.t) (db : Session)
    (utcnow : Z) (user : User.t) :
  first_user_by_email db (UserLogin.email credentials)
    = Return (Some user) ->
  verify_password (UserLogin.password credentials) (User.password_hash user)
    = Return false ->
  login settings credentials db utcnow
  = ([QueryUserByEmail (UserLogin.email credentials)],
     Raise (HTTPException 401 "Incorrect email or password" None)).
Proof.
  intros Hsome Hverify. unfold login, query_user_by_email.
  rewrite Hsome. cbn. rewrite Hverify. reflexivity.
Qed.

(** C8: a login attempt whose email matches no user and a login attempt
    whose email matches a user but whose password does not verify fail with
    the same exception: the same kind, status 401 and message. *)
Theorem login_failure_indistinguishable
    (unknown wrong : UserLogin.t) (db db' : Session) (utcnow utcnow' : Z)
    (user : User.t) :
  first_user_by_email db (UserLogin.email unknown) = Return None ->
  first_user_by_email db' (UserLogin.email wrong) = Return (Some user) ->
  verify_password (UserLogin.password wrong) (User.password_hash user)
    = Return false ->
  outcome (login settings unknown db utcnow)
    = outcome (login settings wrong db' utcnow') /\
  outcome (login settings unknown db utcnow)
    = Raise (HTTPException 401 "Incorrect email or password" None).
Proof.
  intros Hnone Hsome Hverify.
  rewrite (login_unknown_email unknown db utcnow Hnone).
  rewrite (login_wrong_password wrong db' utcnow' user Hsome Hverify).
  split; reflexivity.
Qed.

End LoginProperties.

Lemma login_failure_indistinguishable_witness :
  let nobody := {| UserLogin.email := "nobody@b.com";
                   UserLogin.password := py "StrongP@ss123" |} in
  let mistaken := {| UserLogin.email := "a@b.com";
                     UserLogin.password := py "Wr0ng!pass" |} in
  outcome (@Routes.login (Sample.book_jose Sample.book) Sample.table_orm
             Sample.plain_passlib Sample.plain_pydantic default_settings
             nobody Sample.users 5)
  = outcome (@Routes.login (Sample.book_jose Sample.book) Sample.table_orm
               Sample.plain_passlib Sample.plain_pydantic default_settings
               mistaken Sample.users 5).
Proof.
  intros nobody mistaken.
  apply (proj1 (@login_failure_indistinguishable (Sample.book_jose Sample.book)
                  Sample.table_orm Sample.plain_passlib Sample.plain_pydantic
                  default_settings nobody mistaken Sample.users Sample.users 5 5
                  Sample.alice eq_refl eq_refl eq_refl)).
Defined.

(** ** Further properties of the token service *)

Section TokenExtras.
Context `{JoseLib} (settings : Settings).
Import JwtHandler.

(** X1: whatever [exp] the caller put in the claims, the issued claims carry
    the expiry the function computes, every other claim is the caller's, and
    the keys are the caller's keys plus [exp]. *)
Theorem to_encode_replaces_exp (data : gmap string value)
    (expires_delta : option timedelta) (utcnow : Z) (v : value) :
  to_encode settings (<["exp" := v]> data) expires_delta utcnow
    = to_encode settings data expires_delta utcnow /\
  (forall key, key <> "exp" ->
     to_encode settings data expires_delta utcnow !! key = data !! key) /\
  dom (to_encode settings data expires_delta utcnow) = {["exp"]} ∪ dom data /\
  exists expire,
    to_encode settings data expires_delta utcnow !! "exp"
      = Some (VDatetime expire) /\
    (expire = default_expire settings utcnow \/
     exists delta, expires_delta = Some delta /\ delta <> 0%Z /\
                   expire = (utcnow + delta)%Z).
Proof.
  split.
  { unfold to_encode. apply insert_insert_eq. }
  split.
  { intros key Hk. now apply to_encode_other. }
  split.
  { unfold to_encode. apply dom_insert_L. }
  destruct expires_delta as [delta |].
  - destruct (Z.eq_dec delta 0%Z) as [-> | Hnz].
    + exists (default_expire settings utcnow). split; [| now left].
      unfold to_encode. cbn. apply lookup_insert_eq.
    + exists (utcnow + delta)%Z. split.
      * now apply to_encode_exp_custom.
      * right. exists delta. auto.
  - exists (default_expire settings utcnow). split; [| now left].
    apply to_encode_exp_default.
Qed.

(** X2: the claims of a user token are exactly [user_id], [email], [role]
    and [exp]: nothing else of the user goes into the token. *)
Theorem create_user_token_claims (user_id : Z) (email role : string)
    (utcnow : Z) :
  create_user_token settings user_id email role utcnow
    = jwt_encode
        (to_encode settings (token_data user_id email role) None utcnow)
        (JWT_SECRET settings) (JWT_ALGORITHM settings) /\
  dom (to_encode settings (token_data user_id email role) None utcnow)
    = ({["user_id"; "email"; "role"; "exp"]} : gset string) /\
  to_encode settings (token_data user_id email role) None utcnow
    !! "user_id" = Some (VInt user_id) /\
  to_encode settings (token_data user_id email role) None utcnow
    !! "email" = Some (VStr email) /\
  to_encode settings (token_data user_id email role) None utcnow
    !! "role" = Some (VStr role) /\
  to_encode settings (token_data user_id email role) None utcnow
    !! "exp" = Some (VDatetime (default_expire settings utcnow)).
Proof.
  split; [reflexivity |].
  split.
  { unfold to_encode, token_data. rewrite !dom_insert_L, dom_empty_L.
    set_solver. }
  unfold to_encode, token_data, default_expire.
  repeat split; simplify_map_eq; reflexivity.
Qed.


Lemma timegm_next_second (expire t1 : Z) :
  (expire + timedelta_seconds 1 <= t1)%Z -> (timegm expire < timegm t1)%Z.
Proof.
  unfold timegm, timedelta_seconds. intros Hle.
  assert ((expire + 1 * 1000000) / 1000000 <= t1 / 1000000)%Z as Hdiv
    by (apply Z.div_le_mono; lia).
  rewrite Z.div_add in Hdiv by lia. lia.
Qed.

(** X4: a token is refused from one second after its expiry on, if the
    library refuses expired tokens: [verify_token] prints the failure and
    returns [None], and [extract_user_id] returns [None]. *)
Theorem expired_token_is_refused (data : gmap string value)
    (expires_delta : option timedelta) (t0 t1 expire : Z) (token : string) :
  jose_rejects_expired (to_encode settings data expires_delta t0)
                       (JWT_SECRET settings) (JWT_ALGORITHM settings) ->
  create_access_token settings data expires_delta t0 = Return token ->
  to_encode settings data expires_delta t0 !! "exp"
    = Some (VDatetime expire) ->
  (expire + timedelta_seconds 1 <= t1)%Z ->
  (exists msg,
     verify_token settings token t1
     = ([Printed ("JWT verification failed: " +:+ msg)], Return None)) /\
  outcome (extract_user_id settings token t1) = Return VNone.
Proof.
  intros Hexpired Henc Hexp Hlate.
  destruct (Hexpired token t1 expire Henc Hexp (timegm_next_second _ _ Hlate))
    as [msg Hd].
  assert (verify_token settings token t1
          = ([Printed ("JWT verification failed: " +:+ msg)], Return None))
    as Hv by (now rewrite (verify_token_rejected settings _ _ _ Hd)).
  split; [exists msg; exact Hv |].
  unfold extract_user_id. rewrite Hv. reflexivity.
Qed.

(** X5: a token issued with a custom duration of minus one second or less
    is refused at any time from its issuance on. *)
Theorem negative_duration_is_expired (data : gmap string value)
    (delta : timedelta) (t0 t1 : Z) (token : string) :
  jose_rejects_expired (to_encode settings data (Some delta) t0)
                       (JWT_SECRET settings) (JWT_ALGORITHM settings) ->
  create_access_token settings data (Some delta) t0 = Return token ->
  (delta <= timedelta_seconds (-1))%Z ->
  (t0 <= t1)%Z ->
  outcome (verify_token settings token t1) = Return None.
Proof.
  intros Hexpired Henc Hneg Hafter.
  assert (delta <> 0%Z) as Hnz by (unfold timedelta_seconds in Hneg; lia).
  destruct (Hexpired token t1 (t0 + delta)%Z Henc
              (to_encode_exp_custom settings data delta t0 Hnz))
    as [msg Hd].
  { apply timegm_next_second. unfold timedelta_seconds in *. lia. }
  now rewrite (verify_token_rejected settings _ _ _ Hd).
Qed.

End TokenExtras.

(** ** Further properties of identity resolution and the guards *)

Section ResolverExtras.
Context `{JoseLib} `{Orm} (settings : Settings).
Import JwtHandler Dependencies.

(** [get_current_user] in terms of the answer of [jwt.decode]. *)
Lemma get_current_user_cases (credentials : HTTPAuthorizationCredentials.t)
    (db : Session) (utcnow : Z) :
  get_current_user settings credentials db utcnow
  = match jwt_decode (HTTPAuthorizationCredentials.credentials credentials)
            (JWT_SECRET settings) [JWT_ALGORITHM settings] utcnow with
    | Return payload =>
        if dict_truthy payload then
          if truthy (dict_get payload "user_id") then
            ([QueryUserById (dict_get payload "user_id")],
             match first_user_by_id db (dict_get payload "user_id") with
             | Return (Some user) => Return user
             | Return None =>
                 Raise (HTTPException 401 "User not found" www_authenticate)
             | Raise e => Raise e
             end)
          else
            ([], Raise (HTTPException 401 "Invalid token payload"
                          www_authenticate))
        else
          ([], Raise (HTTPException 401 "Invalid or expired token"
                        www_authenticate))
    | Raise e =>
        if isinstance_JWTError e then
          ([Printed ("JWT verification failed: " +:+ str_exn e)],
           Raise (HTTPException 401 "Invalid or expired token"
                    www_authenticate))
        else ([], Raise e)
    end.
Proof.
  unfold get_current_user, verify_token.
  destruct (jwt_decode _ _ _ utcnow) as [payload | e].
  - rewrite bind_ret.
    destruct (dict_truthy payload); cbn [negb]; [| reflexivity].
    destruct (truthy (dict_get payload "user_id")); cbn [negb];
      [| reflexivity].
    unfold query_user_by_id.
    destruct (first_user_by_id db (dict_get payload "user_id")) as [[] |];
      reflexivity.
  - destruct (isinstance_JWTError e); reflexivity.
Qed.

(** X6: [get_current_user] ends in one of four ways. It returns the row
    the database holds for the truthy [user_id] of an accepted token, after
    exactly one query; or it raises a 401 that carries the WWW-Authenticate
    header and one of three details; or it lets through, before any query,
    the exception of [jwt.decode] that is no [JWTError]; or it lets through
    the exception that the query raised. *)
Theorem get_current_user_outcomes
    (credentials : HTTPAuthorizationCredentials.t) (db : Session)
    (utcnow : Z) :
  let decoded :=
    jwt_decode (HTTPAuthorizationCredentials.credentials credentials)
      (JWT_SECRET settings) [JWT_ALGORITHM settings] utcnow in
  let resolved := get_current_user settings credentials db utcnow in
  (exists payload user,
     decoded = Return payload /\
     truthy (dict_get payload "user_id") = true /\
     first_user_by_id db (dict_get payload "user_id") = Return (Some user) /\
     resolved = ([QueryUserById (dict_get payload "user_id")], Return user)) \/
  (exists detail,
     outcome resolved = Raise (HTTPException 401 detail www_authenticate) /\
     In detail ["Invalid or expired token"; "Invalid token payload";
                "User not found"]) \/
  (exists e,
     decoded = Raise e /\
     isinstance_JWTError e = false /\
     resolved = ([], Raise e)) \/
  (exists payload e,
     decoded = Return payload /\
     truthy (dict_get payload "user_id") = true /\
     first_user_by_id db (dict_get payload "user_id") = Raise e /\
     resolved = ([QueryUserById (dict_get payload "user_id")], Raise e)).
Proof.
  cbn zeta. rewrite get_current_user_cases.
  destruct (jwt_decode _ _ _ utcnow) as [payload | e] eqn:Hd.
  - destruct (dict_truthy payload).
    + destruct (truthy (dict_get payload "user_id")) eqn:Ht.
      * destruct (first_user_by_id db (dict_get payload "user_id"))
          as [[user |] | e] eqn:Hu.
        -- left. exists payload, user. auto.
        -- right. left. exists "User not found". cbn. auto.
        -- right. right. right. exists payload, e. auto.
      * right. left. exists "Invalid token payload". cbn. auto.
    + right. left. exists "Invalid or expired token". cbn. auto.
  - destruct (isinstance_JWTError e) eqn:He.
    + right. left. exists "Invalid or expired token". cbn. auto.
    + right. right. left. exists e. auto.
Qed.

(** X7: required and optional resolution agree. On a header that starts
    with Bearer and a space and whose second field is [token], the optional
    resolver performs the effects of [get_current_user] on [token]; it
    returns the user exactly when that one returns it; when it returns
    [None], that one raises a 401 with the WWW-Authenticate header; and
    when it raises, that one raises the same exception. So whenever the
    required resolver raises, the optional one returns [None] or raises
    the same exception. *)
Theorem optional_agrees_with_required (h token : string) (db : Session)
    (utcnow : Z) :
  startswith h "Bearer " = true ->
  subscript (split " " h) 1 = Return token ->
  let required := get_current_user settings (bearer token) db utcnow in
  let optional := get_optional_user settings (Some h) db utcnow in
  trace optional = trace required /\
  (forall user,
     outcome required = Return user <-> outcome optional = Return (Some user)) /\
  (outcome optional = Return None ->
   exists detail,
     outcome required = Raise (HTTPException 401 detail www_authenticate)) /\
  (forall e, outcome optional = Raise e -> outcome required = Raise e) /\
  (forall e, outcome required = Raise e ->
     outcome optional = Return None \/ outcome optional = Raise e).
Proof.
  intros Hp Htok required optional. subst required optional.
  rewrite (get_optional_user_bearer settings h token db utcnow Hp Htok).
  rewrite get_current_user_cases.
  cbn [bearer HTTPAuthorizationCredentials.credentials].
  destruct (jwt_decode token _ _ utcnow) as [payload | e] eqn:Hd.
  - destruct (dict_truthy payload); cbn [andb].
    + destruct (truthy (dict_get payload "user_id")).
      * destruct (first_user_by_id db (dict_get payload "user_id"))
          as [[user |] | e]; cbn [trace outcome fst snd];
          (split; [reflexivity |]); (split; [split; congruence |]);
          (split; [intros; try discriminate; eauto |]);
          (split; [intros; congruence |]);
          intros e' [= <-]; auto.
      * cbn [trace outcome fst snd].
        split; [reflexivity |]. split; [split; discriminate |].
        split; [eauto |]. split; [discriminate | auto].
    + cbn [trace outcome fst snd].
      split; [reflexivity |]. split; [split; discriminate |].
      split; [eauto |]. split; [discriminate | auto].
  - destruct (isinstance_JWTError e); cbn [trace outcome fst snd].
    + split; [reflexivity |]. split; [split; discriminate |].
      split; [eauto |]. split; [discriminate | auto].
    + split; [reflexivity |]. split; [split; discriminate |].
      split; [discriminate |]. split; [intros; congruence |].
      intros e' [= <-]. auto.
Qed.

(** X8: resolution reads only the [user_id] claim. Two accepted tokens
    with non-empty payloads and the same [user_id] resolve to the same
    result, whatever their [email], [role] or other claims say: the role
    that the guards test is the one in the database row. *)
Theorem get_current_user_reads_user_id_only (token token' : string)
    (payload payload' : gmap string value) (db : Session) (utcnow : Z) :
  jwt_decode token (JWT_SECRET settings) [JWT_ALGORITHM settings] utcnow
    = Return payload ->
  jwt_decode token' (JWT_SECRET settings) [JWT_ALGORITHM settings] utcnow
    = Return payload' ->
  payload <> ∅ -> payload' <> ∅ ->
  dict_get payload "user_id" = dict_get payload' "user_id" ->
  get_current_user settings (bearer token) db utcnow
    = get_current_user settings (bearer token') db utcnow /\
  forall allowed_roles,
    depends_on_current_user settings (require_role allowed_roles)
      (bearer token) db utcnow
    = depends_on_current_user settings (require_role allowed_roles)
        (bearer token') db utcnow.
Proof.
  intros Hd Hd' Hne Hne' Hsame.
  assert (get_current_user settings (bearer token) db utcnow
          = get_current_user settings (bearer token') db utcnow) as Heq.
  { rewrite !get_current_user_cases.
    cbn [bearer HTTPAuthorizationCredentials.credentials].
    rewrite Hd, Hd'. unfold dict_truthy.
    rewrite !bool_decide_eq_false_2 by assumption. cbn [negb].
    rewrite Hsame. reflexivity. }
  split; [exact Heq |].
  intros allowed_roles. unfold depends_on_current_user. now rewrite Heq.
Qed.

Lemma split_token_then_rest (token rest : string) :
  no_space token = true ->
  split " " (token +:+ " " +:+ rest) = token :: split " " rest.
Proof.
  induction token as [| c token IH]; [reflexivity |].
  cbn [no_space]. intros Hns. apply andb_true_iff in Hns as [Hc Hrest].
  apply negb_true_iff in Hc.
  change (String c token +:+ " " +:+ rest)
    with (String c (token +:+ " " +:+ rest)).
  cbn [split]. rewrite Hc, (IH Hrest). reflexivity.
Qed.

(** X9: the optional resolver reads the second space-separated field of
    the header and nothing after it: text that follows the token and a
    space does not change the result. *)
Theorem get_optional_user_ignores_trailing_text (token rest : string)
    (db : Session) (utcnow : Z) :
  no_space token = true ->
  get_optional_user settings (Some ("Bearer " +:+ token +:+ " " +:+ rest))
    db utcnow
  = get_optional_user settings (Some ("Bearer " +:+ token)) db utcnow.
Proof.
  intros Hns.
  destruct (bearer_token_no_space token Hns) as [Hp Htok].
  rewrite (get_optional_user_bearer settings _ token db utcnow Hp Htok).
  apply get_optional_user_bearer; [reflexivity |].
  rewrite split_bearer, (split_token_then_rest token rest Hns).
  reflexivity.
Qed.

(** X10: a guard behind [Depends(get_current_user)] never turns a refused
    authentication into access. When [get_current_user] raises, the chain
    with [require_role] raises the same exception after the same effects;
    otherwise it returns the resolved user exactly when the role of the
    database row is listed, and raises the 403 of [require_role] if not. *)
Theorem require_role_after_authentication (allowed_roles : list UserRole)
    (credentials : HTTPAuthorizationCredentials.t) (db : Session)
    (utcnow : Z) :
  let authenticated := get_current_user settings credentials db utcnow in
  let guarded :=
    depends_on_current_user settings (require_role allowed_roles)
      credentials db utcnow in
  trace guarded = trace authenticated /\
  outcome guarded
  = match outcome authenticated with
    | Return user =>
        if bool_decide (User.role user ∈ allowed_roles) then Return user
        else Raise (HTTPException 403
                      ("Access denied. Required roles: "
                       +:+ repr_str_list (map UserRole_value allowed_roles))
                      None)
    | Raise e => Raise e
    end /\
  access_outcome (outcome guarded)
  = match outcome authenticated with
    | Return user =>
        if bool_decide (User.role user ∈ allowed_roles) then Authorized user
        else Forbidden
    | Raise e => access_outcome (Raise e)
    end.
Proof.
  intros authenticated guarded. subst authenticated guarded.
  rewrite depends_on_current_user_outcome.
  destruct (get_current_user settings credentials db utcnow)
    as [tr [user | e]]; cbn [trace outcome fst snd];
    [| split; [| split]; reflexivity].
  split; [reflexivity |].
  destruct (bool_decide (User.role user ∈ allowed_roles)) eqn:Hin.
  - apply bool_decide_eq_true_1 in Hin. rewrite require_role_member by exact Hin.
    split; reflexivity.
  - apply bool_decide_eq_false_1 in Hin.
    rewrite require_role_not_member by exact Hin. split; reflexivity.
Qed.

End ResolverExtras.

Section GuardExtras.
Import Dependencies.

(** X11: [require_role] is monotone in the allowed roles and indifferent
    to their order and repetition: a user authorized for a list is
    authorized for every list that contains its roles; with no role listed
    every user is refused, and with all three listed every user passes. *)
Theorem require_role_monotone :
  (forall allowed allowed' u,
     (forall r, r ∈ allowed -> r ∈ allowed') ->
     require_role allowed u = Return u ->
     require_role allowed' u = Return u) /\
  (forall u, access_outcome (require_role [] u) = Forbidden) /\
  (forall u, require_role [GUEST; USER; ADMIN] u = Return u).
Proof.
  split; [| split].
  - intros allowed allowed' u Hsub Hok.
    apply require_role_member. apply Hsub.
    destruct (decide (User.role u ∈ allowed)) as [Hin | Hn]; [exact Hin |].
    rewrite (require_role_not_member allowed u Hn) in Hok. discriminate.
  - intros u. rewrite require_role_not_member; [reflexivity |].
    apply not_elem_of_nil.
  - intros u. apply require_role_member.
    destruct (User.role u); set_solver.
Qed.

End GuardExtras.

(** ** Further properties of the login route *)

Section LoginExtras.
Context `{JoseLib} `{Orm} `{Passlib} `{Pydantic} (settings : Settings).
Import JwtHandler Dependencies Routes.

(** X12: [login] hands out a token only to a caller whose email matches a
    user and whose password verifies against the stored hash of that user;
    the token is then the user token of that row, of type bearer. *)
Theorem login_requires_verified_password (credentials : UserLogin.t)
    (db : Session) (utcnow : Z) (response : TokenResponse.t) :
  outcome (login settings credentials db utcnow) = Return response ->
  exists user,
    first_user_by_email db (UserLogin.email credentials)
      = Return (Some user) /\
    verify_password (UserLogin.password credentials)
                    (User.password_hash user) = Return true /\
    create_user_token settings (User.id user) (User.email user)
      (UserRole_value (User.role user)) utcnow
      = Return (TokenResponse.access_token response) /\
    TokenResponse.token_type response = "bearer" /\
    UserResponse_from_orm user = Return (TokenResponse.user response).
Proof.
  unfold login, query_user_by_email. cbn.
  destruct (first_user_by_email db (UserLogin.email credentials))
    as [[user |] | e] eqn:Hfound; cbn; try discriminate.
  destruct (verify_password (UserLogin.password credentials)
              (User.password_hash user)) as [[] | e] eqn:Hverify; cbn;
    try discriminate.
  destruct (create_user_token settings (User.id user) (User.email user)
              (UserRole_value (User.role user)) utcnow) as [token | e]
    eqn:Htoken; cbn; [| discriminate].
  destruct (UserResponse_from_orm user) as [user_response | e] eqn:Hresp;
    cbn; [| discriminate].
  intros [= <-]. exists user. cbn. repeat split; assumption || reflexivity.
Qed.

(** X13: the token of a successful login authenticates as the user who
    logged in. If the library carries the claims of the user token, the row
    has a non-zero id under which the database finds it, and the response
    model accepts the row, then [login] returns a token on which
    [get_current_user] returns that row, at any time up to the expiry. *)
Theorem login_token_authenticates (credentials : UserLogin.t)
    (db : Session) (t0 t1 : Z) (user : User.t)
    (user_response : UserResponse.t) :
  first_user_by_email db (UserLogin.email credentials)
    = Return (Some user) ->
  verify_password (UserLogin.password credentials)
                  (User.password_hash user) = Return true ->
  UserResponse_from_orm user = Return user_response ->
  jose_round_trip
    (to_encode settings
       (token_data (User.id user) (User.email user)
          (UserRole_value (User.role user))) None t0)
    (JWT_SECRET settings) (JWT_ALGORITHM settings) ->
  User.id user <> 0%Z ->
  first_user_by_id db (VInt (User.id user)) = Return (Some user) ->
  (t1 <= default_expire settings t0)%Z ->
  exists token,
    login settings credentials db t0
    = ([QueryUserByEmail (UserLogin.email credentials)],
       Return {| TokenResponse.access_token := token;
                 TokenResponse.token_type := "bearer";
                 TokenResponse.user := user_response |}) /\
    get_current_user settings (bearer token) db t1
    = ([QueryUserById (VInt (User.id user))], Return user).
Proof.
  intros Hfound Hverify Hresp Hrt Hid Hrow Ht.
  destruct (verify_issued settings _ None t0 t1 (default_expire settings t0)
              (to_encode_exp_default settings _ t0) Ht Hrt)
    as (token & payload & Henc & Hver & Htruthy & Huid).
  exists token. split.
  - unfold login, query_user_by_email. cbn. rewrite Hfound. cbn.
    rewrite Hverify. cbn. unfold create_user_token. rewrite Henc. cbn.
    rewrite Hresp. reflexivity.
  - assert (dict_get payload "user_id" = VInt (User.id user)) as Hpayload.
    { rewrite Huid. unfold dict_get, token_data.
      rewrite lookup_insert_eq. reflexivity. }
    unfold get_current_user.
    cbn [bearer HTTPAuthorizationCredentials.credentials].
    rewrite Hver.
    change (@pair (list event) (result (option (gmap string value))) []
              (Return (Some payload))) with (ret (Some payload)).
    rewrite bind_ret, Htruthy, Hpayload. cbn [negb truthy].
    replace (User.id user =? 0)%Z with false
      by (symmetry; now apply Z.eqb_neq).
    cbn [negb]. unfold query_user_by_id. cbn. rewrite Hrow. reflexivity.
Qed.

End LoginExtras.

(** ** Further properties of the password manager *)

Section PasswordExtras.
Import Password.

Lemma re_search_app (cls : codepoint -> bool) (p q : pystr) :
  re_search cls (p ++ q)%list = re_search cls p || re_search cls q.
Proof. unfold re_search. apply existsb_app. Qed.

Lemma re_search_permutation (cls : codepoint -> bool) (p q : pystr) :
  Permutation p q -> re_search cls p = re_search cls q.
Proof.
  intros Hperm. apply eq_true_iff_eq. rewrite !re_search_true.
  split; intros (c & Hin & Hc); exists c; split; try exact Hc.
  - apply list_elem_of_In. rewrite <- Hperm. now apply list_elem_of_In.
  - apply list_elem_of_In. rewrite Hperm. now apply list_elem_of_In.
Qed.

(** X14: the verdict on a password depends only on which characters it
    has and how many: it is the same for every rearrangement, and a
    password that is accepted stays accepted when characters are added in
    front or behind, so there is no upper bound on the length and no
    character is forbidden. *)
Theorem validate_password_strength_extension :
  (forall p q, Permutation p q ->
     validate_password_strength p = validate_password_strength q) /\
  (forall p before behind,
     validate_password_strength p = (true, EmptyString) ->
     validate_password_strength (before ++ p ++ behind)%list
     = (true, EmptyString)).
Proof.
  split.
  - intros p q Hperm. unfold validate_password_strength.
    rewrite (Permutation_length Hperm).
    now rewrite !(re_search_permutation _ p q Hperm).
  - intros p before behind Hok.
    apply validate_password_strength_accepts in Hok.
    apply validate_password_strength_accepts.
    unfold PasswordSpec.passes_every_rule in *.
    cbn [PasswordSpec.rules forallb fst] in *.
    rewrite !andb_true_iff in Hok.
    destruct Hok as (Hlen & Hup & Hlow & Hdig & Hsp & _).
    rewrite !re_search_app, Hup, Hlow, Hdig, Hsp.
    rewrite !orb_true_r. apply andb_true_iff. split; [| reflexivity].
    apply negb_true_iff, Nat.ltb_ge.
    apply negb_true_iff, Nat.ltb_ge in Hlen.
    rewrite !length_app. lia.
Qed.

End PasswordExtras.

(** ** Properties of the severity classifier *)

Section SeverityProperties.
Import PyText Symptoms.

Lemma is_prefix_spec (needle hay : pystr) :
  is_prefix needle hay = true <-> exists post, hay = (needle ++ post)%list.
Proof.
  revert hay. induction needle as [| a needle IH]; intros hay; cbn.
  - split; [intros _; exists hay; reflexivity | reflexivity].
  - destruct hay as [| b hay]; cbn.
    + split; [discriminate | intros [post Hpost]; discriminate].
    + rewrite andb_true_iff, N.eqb_eq, IH. split.
      * intros [-> [post ->]]. exists post. reflexivity.
      * intros [post [= -> ->]]. split; [reflexivity |].
        exists post. reflexivity.
Qed.

Lemma contains_spec (needle hay : pystr) :
  contains needle hay = true <->
  exists pre post, hay = (pre ++ needle ++ post)%list.
Proof.
  induction hay as [| b hay IH]; cbn [contains].
  - rewrite orb_false_r, is_prefix_spec. split.
    + intros [post Hpost]. exists [], post. exact Hpost.
    + intros (pre & post & Heq). symmetry in Heq.
      apply app_eq_nil in Heq as [-> Heq]. exists post. now symmetry.
  - rewrite orb_true_iff, is_prefix_spec, IH. split.
    + intros [[post Hpost] | (pre & post & ->)].
      * exists [], post. exact Hpost.
      * exists (b :: pre), post. reflexivity.
    + intros (pre & post & Heq). destruct pre as [| c pre].
      * left. exists post. exact Heq.
      * right. injection Heq as -> ->. exists pre, post. reflexivity.
Qed.

(** A text that contains a phrase contains every tail of the phrase. *)
Lemma contains_tail (front back hay : pystr) :
  contains (front ++ back)%list hay = true -> contains back hay = true.
Proof.
  rewrite !contains_spec. intros (pre & post & ->).
  exists (pre ++ front)%list, post. now rewrite <- !app_assoc.
Qed.

(** X15: the classifier looks for the high keywords first, and the low
    keyword not serious contains the high keyword serious. So a response
    that says not serious is classified HIGH, and LOW is returned exactly
    when none of the six high keywords occurs and one of low severity,
    minor, mild and self-care does. *)
Theorem determine_severity_not_serious `{UnicodeStr} (ai_response : pystr) :
  (contains (py "not serious") (str_lower ai_response) = true ->
   determine_severity ai_response = HIGH) /\
  (determine_severity ai_response = LOW <->
   any_keyword_in high_keywords (str_lower ai_response) = false /\
   any_keyword_in (map py ["low severity"; "minor"; "mild"; "self-care"])
                  (str_lower ai_response) = true).
Proof.
  assert (forall text,
            contains (py "not serious") text = true ->
            any_keyword_in high_keywords text = true) as Hdead.
  { intros text Hin.
    apply (contains_tail (py "not ") (py "serious")) in Hin.
    unfold any_keyword_in, high_keywords. cbn [map existsb].
    rewrite Hin. now rewrite !orb_true_r. }
  split.
  - intros Hin. unfold determine_severity. now rewrite (Hdead _ Hin).
  - unfold determine_severity.
    destruct (any_keyword_in high_keywords (str_lower ai_response))
      eqn:Hhigh.
    + split; [discriminate | intros [? _]; discriminate].
    + unfold any_keyword_in, low_keywords. cbn [map existsb].
      destruct (contains (py "not serious") (str_lower ai_response))
        eqn:Hns.
      * rewrite (Hdead _ Hns) in Hhigh. discriminate.
      * rewrite !orb_false_r.
        destruct (contains (py "low severity") (str_lower ai_response)
                  || (contains (py "minor") (str_lower ai_response)
                      || (contains (py "mild") (str_lower ai_response)
                          || contains (py "self-care")
                               (str_lower ai_response)))).
        -- split; auto.
        -- split; [discriminate | intros [_ ?]; discriminate].
Qed.

End SeverityProperties.

Lemma determine_severity_not_serious_witness :
  @Symptoms.determine_severity Sample2.ascii_unicode
    (py "This is NOT serious, just mild.") = Symptoms.HIGH.
Proof.
  apply (proj1 (@determine_severity_not_serious Sample2.ascii_unicode
                  (py "This is NOT serious, just mild."))).
  vm_compute. reflexivity.
Defined.

(** ** Properties of the start-up checks and of the AI service *)

(** Membership in a list that is known once the cases are split. *)
Ltac list_membership :=
  rewrite ?list_elem_of_In; cbn [In];
  intuition (try discriminate; try congruence).

Section ConfigProperties.
Import AppSettings Config.

Lemma get_available_ai_providers_nil (settings : AppSettings.t) :
  get_available_ai_providers settings = [] <->
  str_truthy (GEMINI_API_KEY settings)
  || str_truthy (GROQ_API_KEY settings)
  || str_truthy (HUGGINGFACE_API_KEY settings) = false.
Proof.
  unfold get_available_ai_providers.
  destruct (str_truthy (GEMINI_API_KEY settings)),
           (str_truthy (GROQ_API_KEY settings)),
           (str_truthy (HUGGINGFACE_API_KEY settings));
    cbn; split; intros; congruence.
Qed.

(** X16: the list of available providers names exactly the providers whose
    key is not empty, in the fixed order Gemini, Groq, HuggingFace. *)
Theorem get_available_ai_providers_spec (settings : AppSettings.t) :
  sublist (get_available_ai_providers settings)
          ["Gemini"; "Groq"; "HuggingFace"] /\
  ("Gemini" ∈ get_available_ai_providers settings <->
   GEMINI_API_KEY settings <> EmptyString) /\
  ("Groq" ∈ get_available_ai_providers settings <->
   GROQ_API_KEY settings <> EmptyString) /\
  ("HuggingFace" ∈ get_available_ai_providers settings <->
   HUGGINGFACE_API_KEY settings <> EmptyString).
Proof.
  unfold get_available_ai_providers, str_truthy.
  destruct (String.eqb_spec (GEMINI_API_KEY settings) EmptyString)
    as [Hg | Hg];
  destruct (String.eqb_spec (GROQ_API_KEY settings) EmptyString)
    as [Hq | Hq];
  destruct (String.eqb_spec (HUGGINGFACE_API_KEY settings) EmptyString)
    as [Hh | Hh];
  cbn;
  (split;
   [ repeat first [ apply sublist_nil | apply sublist_skip
                  | apply sublist_cons ]
   | split; [| split]; list_membership ]).
Qed.

(** X17: in production the import of the configuration goes through
    exactly when the JWT secret is not the one shipped with the code and
    at least one provider is available; the secret is checked first.
    Outside production it always goes through, and the warning about DEBUG
    is only printed in production. *)
Theorem validation_on_import_spec (settings : AppSettings.t) :
  (snd (validation_on_import settings) = inl tt <->
   ENVIRONMENT settings <> "production" \/
   (JWT_SECRET (jwt settings)
      <> "CHANGE_THIS_IN_PRODUCTION_USE_RANDOM_STRING" /\
    get_available_ai_providers settings <> [])) /\
  (snd (validation_on_import settings) = inr NoAiApiKeys ->
   JWT_SECRET (jwt settings)
     <> "CHANGE_THIS_IN_PRODUCTION_USE_RANDOM_STRING") /\
  (fst (validation_on_import settings) = true ->
   ENVIRONMENT settings = "production" /\ DEBUG settings = true).
Proof.
  unfold validation_on_import.
  rewrite get_available_ai_providers_nil.
  destruct (String.eqb_spec (ENVIRONMENT settings) "production")
    as [Henv | Henv].
  2: { cbn. intuition (try discriminate; try congruence). }
  destruct (String.eqb_spec (JWT_SECRET (jwt settings))
              "CHANGE_THIS_IN_PRODUCTION_USE_RANDOM_STRING") as [Hs | Hs].
  { cbn. intuition (try discriminate; try congruence). }
  destruct (str_truthy (GEMINI_API_KEY settings)
            || str_truthy (GROQ_API_KEY settings)
            || str_truthy (HUGGINGFACE_API_KEY settings)); cbn;
    intuition (try discriminate; try congruence).
Qed.

End ConfigProperties.

Section AiServiceProperties.
Context `{AiSdk} (settings : AppSettings.t).
Import AppSettings AiService.

(** X18: the service configures its providers in the fixed order Gemini,
    Groq, Hugging Face and each at most once; it configures only providers
    that [get_available_ai_providers] lists, Hugging Face exactly when its
    key is set; and it logs the error about missing providers exactly when
    it configured none. *)
Theorem init_providers :
  let providers := snd (init settings) in
  sublist providers [GEMINI; GROQ; HUGGINGFACE] /\
  (forall provider, provider ∈ providers ->
     display_name provider ∈ Config.get_available_ai_providers settings) /\
  (HUGGINGFACE ∈ providers <->
   HUGGINGFACE_API_KEY settings <> EmptyString) /\
  (NoProvidersConfigured ∈ fst (init settings) <-> providers = []).
Proof.
  unfold init, Config.get_available_ai_providers, Config.str_truthy.
  destruct (String.eqb_spec (GEMINI_API_KEY settings) EmptyString)
    as [Hg | Hg];
  destruct (String.eqb_spec (GROQ_API_KEY settings) EmptyString)
    as [Hq | Hq];
  destruct (String.eqb_spec (HUGGINGFACE_API_KEY settings) EmptyString)
    as [Hh | Hh];
  destruct genai_imported, Groq_imported;
  destruct (genai_configure _ _); destruct (Groq_client _); cbn;
  (split;
   [ repeat first [ apply sublist_nil | apply sublist_skip
                  | apply sublist_cons ]
   | split;
     [ intros provider; destruct provider; cbn [display_name];
       list_membership
     | split; list_membership ] ]).
Qed.

Section Failover.
Variables (prompt : pystr) (max_tokens : Z) (temperature : float)
          (system_message : option pystr).

Local Abbreviation call provider :=
  (generate_with provider prompt max_tokens temperature system_message)
  (only parsing).

Lemma attempted_failed (provider : AIProvider) (e : exn)
    (logged : list log) :
  attempted (Attempting provider :: Failed provider e :: logged)
  = provider :: attempted logged.
Proof. reflexivity. Qed.

Lemma try_providers_failover (providers : list AIProvider) :
  let r := try_providers providers prompt max_tokens temperature
                         system_message in
  match List.find (fun provider => succeeds (call provider)) providers with
  | Some provider =>
      snd r = call provider /\
      exists failed rest,
        providers = (failed ++ provider :: rest)%list /\
        Forall (fun q => succeeds (call q) = false) failed /\
        attempted (fst r) = (failed ++ [provider])%list
  | None =>
      snd r = Raise (OtherError "Exception"
                       ("All AI providers failed. Please check your API "
                        +:+ "keys and internet connection.")) /\
      attempted (fst r) = providers
  end.
Proof.
  induction providers as [| provider rest IH]; cbn zeta.
  - split; reflexivity.
  - cbn [List.find try_providers].
    destruct (call provider) as [response | e] eqn:Hcall;
      cbn [succeeds].
    + split; [cbn [snd]; symmetry; exact Hcall |].
      exists [], rest. repeat split; constructor.
    + cbn zeta in IH.
      destruct (try_providers rest prompt max_tokens temperature
                              system_message) as [logged r].
      destruct (List.find _ rest) as [winner |]; cbn [fst snd] in *.
      * destruct IH as (Hres & failed & rest' & -> & Hfailed & Hatt).
        split; [exact Hres |].
        exists (provider :: failed), rest'. split; [reflexivity |].
        split.
        -- constructor; [now rewrite Hcall | exact Hfailed].
        -- now rewrite attempted_failed, Hatt.
      * destruct IH as [Hres Hatt]. split; [exact Hres |].
        now rewrite attempted_failed, Hatt.
Qed.

(** X19: [generate_response] answers with the first provider, in the order
    configured, whose call succeeds: it attempts the providers before it,
    which all fail, then that one, and none after it. When every provider
    fails, or none is configured, it raises its own generic exception: the
    exception of a provider never reaches the caller. *)
Theorem generate_response_failover (providers : list AIProvider) :
  let r := generate_response providers prompt max_tokens temperature
                             system_message in
  match List.find (fun provider => succeeds (call provider)) providers with
  | Some provider =>
      snd r = call provider /\
      exists failed rest,
        providers = (failed ++ provider :: rest)%list /\
        Forall (fun q => succeeds (call q) = false) failed /\
        attempted (fst r) = (failed ++ [provider])%list
  | None =>
      attempted (fst r) = providers /\
      snd r
      = Raise (OtherError "Exception"
                 match providers with
                 | [] =>
                     "No AI providers configured. Please add API keys to "
                     +:+ ".env file"
                 | _ =>
                     "All AI providers failed. Please check your API "
                     +:+ "keys and internet connection."
                 end)
  end.
Proof.
  destruct providers as [| provider rest].
  - cbn. split; reflexivity.
  - pose proof (try_providers_failover (provider :: rest)) as Hloop.
    unfold generate_response. cbn [List.length Nat.eqb]. cbn zeta in *.
    destruct (List.find _ (provider :: rest)).
    + exact Hloop.
    + destruct Hloop as [Hres Hatt]. split; assumption.
Qed.

End Failover.
End AiServiceProperties.

(** ** The two password policies *)

Section PolicyProperties.
Context `{UnicodeStr}.
Import Password Schemas.

Lemma existsb_weaken {A} (f g : A -> bool) (l : list A) :
  (forall x, f x = true -> g x = true) ->
  existsb f l = true -> existsb g l = true.
Proof.
  intros Hfg. rewrite !existsb_exists. intros (x & Hin & Hf).
  exists x. auto.
Qed.

(** X20: registration asks less than [validate_password_strength]. If
    the interpreter counts the letters A-Z as upper case, a-z as lower case
    and the decimal digits as digits, every password of at most 100
    characters that [validate_password_strength] accepts also passes the
    checks of the registration schema. *)
Theorem strong_password_passes_registration (p : pystr) :
  (forall c, cls_A_Z c = true -> isupper c = true) ->
  (forall c, cls_a_z c = true -> islower c = true) ->
  (forall c, cls_digit c = true -> isdigit c = true) ->
  validate_password_strength p = (true, EmptyString) ->
  (List.length p <= 100)%nat ->
  UserRegister_accepts_password p = true /\
  password_strength p = Return p.
Proof.
  intros Hupper Hlower Hdigit Hok Hmax.
  apply validate_password_strength_accepts in Hok.
  unfold PasswordSpec.passes_every_rule in Hok.
  cbn [PasswordSpec.rules forallb fst] in Hok.
  rewrite !andb_true_iff in Hok.
  destruct Hok as (Hlen & Hup & Hlow & Hdig & _).
  apply negb_true_iff, Nat.ltb_ge in Hlen.
  assert (password_strength p = Return p) as Hvalid.
  { unfold password_strength.
    rewrite (existsb_weaken _ _ p Hupper Hup).
    rewrite (existsb_weaken _ _ p Hlower Hlow).
    rewrite (existsb_weaken _ _ p Hdigit Hdig). reflexivity. }
  split; [| exact Hvalid].
  unfold UserRegister_accepts_password, password_min_length,
    password_max_length.
  rewrite Hvalid.
  rewrite !andb_true_iff. repeat split.
  - now apply Nat.leb_le.
  - now apply Nat.leb_le.
Qed.

End PolicyProperties.

Lemma strong_password_passes_registration_witness :
  @Schemas.UserRegister_accepts_password Sample2.ascii_unicode
    (py "StrongP@ss123") = true /\
  @Schemas.password_strength Sample2.ascii_unicode (py "StrongP@ss123")
    = Return (py "StrongP@ss123").
Proof.
  apply (@strong_password_passes_registration Sample2.ascii_unicode
           (py "StrongP@ss123")).
  - intros c Hc. exact Hc.
  - intros c Hc. exact Hc.
  - intros c Hc. exact Hc.
  - vm_compute. reflexivity.
  - vm_compute. lia.
Defined.

(** ** Properties of the FAQ retrieval *)

Section DictProperties.
Import PyText.
Context {V : Type}.





End DictProperties.

Section ChatbotProperties.
Context `{UnicodeStr} `{FaqStore}.
Import PyText Chatbot.



(** X21: a question with no word longer than three characters, an empty
    question among them, gets the empty list, and no query is sent. *)
Theorem get_relevant_faqs_short_words (db : Session) (question : pystr)
    (limit : Z) :
  Forall (fun word => (List.length word <= 3)%nat) (str_split question) ->
  get_relevant_faqs db question limit = ([], []).
Proof.
  intros Hshort. unfold get_relevant_faqs, keywords_of.
  replace (List.filter (fun word => (3 <? List.length word)%nat)
             (str_split question)) with (@nil pystr); [reflexivity |].
  symmetry. induction Hshort as [| word words Hword _ IH]; [reflexivity |].
  cbn [List.filter].
  replace (3 <? List.length word)%nat with false
    by (symmetry; apply Nat.ltb_ge; exact Hword).
  exact IH.
Qed.


End ChatbotProperties.

(** ** The further properties on the small instances *)

Section Sample2Properties.
Import Sample Sample2.

Lemma lookup_nonempty (m : gmap string value) (key : string) (v : value) :
  m !! key = Some v -> m <> ∅.
Proof. intros Hk ->. rewrite lookup_empty in Hk. discriminate. Qed.

(** A book refuses the expired token of its first entry. *)
Lemma book_rejects_expired_first (claims : gmap string value)
    (token : string) (rest : list (gmap string value * string))
    (key algorithm : string) :
  @jose_rejects_expired (book_jose ((claims, token) :: rest)) claims key
    algorithm.
Proof.
  intros token' now t Henc Hexp Hlate. cbn -[jose_claims] in *.
  rewrite bool_decide_eq_true_2 in Henc by reflexivity.
  injection Henc as <-. rewrite String.eqb_refl.
  cbn -[jose_claims]. rewrite (jose_claims_exp claims t Hexp).
  replace (timegm t <? timegm now)%Z with true
    by (symmetry; now apply Z.ltb_lt).
  eexists. reflexivity.
Qed.

End Sample2Properties.


Lemma expired_token_is_refused_witness :
  outcome (@JwtHandler.extract_user_id (Sample.book_jose Sample.book)
             default_settings "alice.token.sig" 86401000000)
  = Return VNone.
Proof.
  apply (proj2 (@expired_token_is_refused (Sample.book_jose Sample.book)
                  default_settings
                  (JwtHandler.token_data 123 "a@b.com" "user") None
                  0 86401000000 86400000000 "alice.token.sig"
                  (book_rejects_expired_first Sample.alice_claims _ _ _ _)
                  eq_refl alice_claims_exp ltac:(vm_compute; discriminate))).
Defined.

Lemma negative_duration_is_expired_witness :
  outcome (@JwtHandler.verify_token (Sample.book_jose Sample2.stale_book)
             default_settings "stale.token.sig" 0)
  = Return None.
Proof.
  apply (@negative_duration_is_expired (Sample.book_jose Sample2.stale_book)
           default_settings (<["user_id" := VInt 123]> ∅)
           (timedelta_seconds (-1)) 0 0 "stale.token.sig").
  - exact (book_rejects_expired_first Sample2.stale_claims _ _ _ _).
  - vm_compute. reflexivity.
  - lia.
  - lia.
Defined.

Lemma optional_agrees_with_required_witness :
  outcome (@Dependencies.get_current_user (Sample.book_jose Sample.book)
             Sample.table_orm default_settings (bearer "alice.token.sig")
             Sample.users 5) = Return Sample.alice <->
  outcome (@Dependencies.get_optional_user (Sample.book_jose Sample.book)
             Sample.table_orm default_settings
             (Some "Bearer alice.token.sig") Sample.users 5)
  = Return (Some Sample.alice).
Proof.
  apply (proj1 (proj2 (@optional_agrees_with_required
                         (Sample.book_jose Sample.book) Sample.table_orm
                         default_settings "Bearer alice.token.sig"
                         "alice.token.sig" Sample.users 5
                         eq_refl eq_refl)) Sample.alice).
Defined.

Lemma get_current_user_reads_user_id_only_witness :
  @Dependencies.get_current_user (Sample.book_jose Sample2.role_book)
    Sample.table_orm default_settings (bearer "alice.token.sig")
    Sample.users 5
  = @Dependencies.get_current_user (Sample.book_jose Sample2.role_book)
      Sample.table_orm default_settings (bearer "alice.admin.sig")
      Sample.users 5.
Proof.
  apply (proj1 (@get_current_user_reads_user_id_only
                  (Sample.book_jose Sample2.role_book) Sample.table_orm
                  default_settings "alice.token.sig" "alice.admin.sig"
                  (jose_claims Sample.alice_claims)
                  (jose_claims Sample2.admin_claims) Sample.users 5
                  ltac:(vm_compute; reflexivity)
                  ltac:(vm_compute; reflexivity)
                  (lookup_nonempty (jose_claims Sample.alice_claims)
                     "user_id" (VInt 123) ltac:(vm_compute; reflexivity))
                  (lookup_nonempty (jose_claims Sample2.admin_claims)
                     "user_id" (VInt 123) ltac:(vm_compute; reflexivity))
                  ltac:(vm_compute; reflexivity))).
Defined.

Lemma get_optional_user_ignores_trailing_text_witness :
  @Dependencies.get_optional_user (Sample.book_jose Sample.book)
    Sample.table_orm default_settings
    (Some ("Bearer " +:+ "alice.token.sig" +:+ " " +:+ "and more"))
    Sample.users 5
  = @Dependencies.get_optional_user (Sample.book_jose Sample.book)
      Sample.table_orm default_settings
      (Some ("Bearer " +:+ "alice.token.sig")) Sample.users 5.
Proof.
  apply (@get_optional_user_ignores_trailing_text
           (Sample.book_jose Sample.book) Sample.table_orm default_settings
           "alice.token.sig" "and more" Sample.users 5).
  reflexivity.
Defined.

Lemma login_requires_verified_password_witness :
  exists user,
    @first_user_by_email Sample.table_orm Sample.users
      (UserLogin.email Sample2.alice_login) = Return (Some user) /\
    @verify_password Sample.plain_passlib
      (UserLogin.password Sample2.alice_login) (User.password_hash user)
      = Return true /\
    @JwtHandler.create_user_token (Sample.book_jose Sample.book)
      default_settings (User.id user) (User.email user)
      (UserRole_value (User.role user)) 0
      = Return (TokenResponse.access_token Sample2.alice_token_response) /\
    TokenResponse.token_type Sample2.alice_token_response = "bearer" /\
    @UserResponse_from_orm Sample.plain_pydantic user
      = Return (TokenResponse.user Sample2.alice_token_response).
Proof.
  apply (@login_requires_verified_password (Sample.book_jose Sample.book)
           Sample.table_orm Sample.plain_passlib Sample.plain_pydantic
           default_settings Sample2.alice_login Sample.users 0
           Sample2.alice_token_response).
  vm_compute. reflexivity.
Defined.

Lemma login_token_authenticates_witness :
  exists token,
    @Routes.login (Sample.book_jose Sample.book) Sample.table_orm
      Sample.plain_passlib Sample.plain_pydantic default_settings
      Sample2.alice_login Sample.users 0
    = ([QueryUserByEmail (UserLogin.email Sample2.alice_login)],
       Return {| TokenResponse.access_token := token;
                 TokenResponse.token_type := "bearer";
                 TokenResponse.user := Sample2.alice_response |}) /\
    @Dependencies.get_current_user (Sample.book_jose Sample.book)
      Sample.table_orm default_settings (bearer token) Sample.users 5
    = ([QueryUserById (VInt (User.id Sample.alice))], Return Sample.alice).
Proof.
  apply (@login_token_authenticates (Sample.book_jose Sample.book)
           Sample.table_orm Sample.plain_passlib Sample.plain_pydantic
           default_settings Sample2.alice_login Sample.users 0 5
           Sample.alice Sample2.alice_response).
  - reflexivity.
  - vm_compute. reflexivity.
  - reflexivity.
  - exact book_carries_alice.
  - vm_compute. discriminate.
  - reflexivity.
  - vm_compute. discriminate.
Defined.

Lemma get_relevant_faqs_short_words_witness :
  @Chatbot.get_relevant_faqs Sample2.ascii_unicode Sample.table_orm
    Sample2.table_faqs Sample.users (py "is it ok") 5
  = ([], []).
Proof.
  apply (@get_relevant_faqs_short_words Sample2.ascii_unicode
           Sample.table_orm Sample2.table_faqs Sample.users
           (py "is it ok") 5).
  vm_compute. repeat constructor.
Defined.

